(** * pumpfun-token-watcher: the ingestion engine of [main.py]

    A shallow embedding of [main.py]: the decoded feed messages (Python
    values as [json.loads] returns them), the two SQLite tables, the
    [WebSocketManager] with its pending queue and its set of subscribed
    mints, the reconnect loop with its backoff, and the body of the
    receive loop of [main].

    What the program gets from its runtime is input of the model: the
    outcome of every connection attempt, the outcome of [recv], the clock
    reading taken at receipt, and whether a [send] goes through.  The
    database file is always there to be opened.  The three tasks of the
    program (the receive loop, the subscription handlers, the statistics
    printer) are interleaved by the event loop; here a pass of the loop body
    and a pass of a handler are single steps, taken in any order.

    Python floats are IEEE binary64 values ([spec_float] at precision 53);
    the backoff delay, the only place where the program does arithmetic on
    floats ([math.exp]), is read over the real numbers, with the overflow of
    [math.exp] kept. *)

From Stdlib Require Import ZArith String List Reals Lra Lia SpecFloat.
From stdpp Require Import gmap strings list.

Set Warnings "-register-all,-clear-no-such-hyp".
Local Open Scope Z_scope.

(** ** Configuration ([class Config]) *)

Module Config.
Definition INITIAL_RECONNECT_DELAY : R := 1%R.
Definition MAX_RECONNECT_DELAY : R := 60%R.
End Config.

(** ** Python values *)

(** The values [json.loads] produces.  A JSON object becomes a [dict] with
    string keys. *)
Inductive pyval : Type :=
| PNone
| PBool (b : bool)
| PInt (z : Z)
| PFloat (f : spec_float)
| PStr (s : string)
| PList (l : list pyval)
| PDict (d : gmap string pyval).

(** The exceptions the loop body can meet. *)
Inductive exn : Type :=
| TypeError
| ValueError
| OverflowError
| BindError          (* sqlite3: a parameter of an unsupported type *)
| IntegrityError.    (* sqlite3: a constraint failed *)

(** binary64 *)
Definition prec : Z := 53.
Definition emax : Z := 1024.

Definition float_zero : spec_float := S754_zero false.
Definition float_one : spec_float := S754_finite false 4503599627370496 (-52).

(** [float(n)] for an [int]: the nearest binary64 value, ties to even;
    [OverflowError] when that is not finite. *)
Definition float_of_int (z : Z) : exn + spec_float :=
  match binary_normalize prec emax z 0 false with
  | S754_infinity _ => inl OverflowError
  | f => inr f
  end.

(** Truth value of an object, as [or] tests it. *)
Definition truthy (v : pyval) : bool :=
  match v with
  | PNone => false
  | PBool b => b
  | PInt z => negb (z =? 0)
  | PFloat (S754_zero _) => false
  | PFloat _ => true
  | PStr s => negb (String.eqb s "")
  | PList l => match l with [] => false | _ => true end
  | PDict d => negb (bool_decide (d = ∅))
  end.

(** [a or b] *)
Definition py_or (a b : pyval) : pyval := if truthy a then a else b.

(** [d.get(k, default)] *)
Definition dict_get (d : gmap string pyval) (k : string) (default : pyval) : pyval :=
  match d !! k with
  | Some v => v
  | None => default
  end.

(** [k in d] *)
Definition has_key (d : gmap string pyval) (k : string) : bool :=
  match d !! k with
  | Some _ => true
  | None => false
  end.

(** [v == s] for a string literal [s] *)
Definition str_eq (v : pyval) (s : string) : bool :=
  match v with
  | PStr s' => String.eqb s' s
  | _ => false
  end.

(** ** The SQLite database ([initialize_database]) *)

(** Values as [sqlite3] binds them to the parameters of a statement.  A row
    records the values bound for its columns; what SQLite makes of a value
    whose storage class is not the one its column prefers is not modelled. *)
Inductive sqlval : Type :=
| SNull
| SInteger (z : Z)
| SReal (f : spec_float)
| SText (s : string).

(** The adapter of [sqlite3]: [None], [int] (and [bool], a subclass of it),
    [float] and [str] are supported; an [int] outside 64 bits raises
    [OverflowError], any other type is refused. *)
Definition bind (v : pyval) : exn + sqlval :=
  match v with
  | PNone => inr SNull
  | PBool b => inr (SInteger (if b then 1 else 0))
  | PInt z => if (- 2 ^ 63 <=? z) && (z <? 2 ^ 63) then inr (SInteger z)
              else inl OverflowError
  | PFloat f => inr (SReal f)
  | PStr s => inr (SText s)
  | PList _ | PDict _ => inl BindError
  end.

(** [tokens (mint TEXT PRIMARY KEY, timestamp INTEGER,
            initial_sol_liquidity REAL, name TEXT, symbol TEXT)] *)
Record token_row : Type := {
  tk_mint : string;
  tk_timestamp : sqlval;
  tk_initial_sol_liquidity : sqlval;
  tk_name : sqlval;
  tk_symbol : sqlval
}.

(** [raw_txs]: the autoincrement [id] of a row is its position in the
    table. *)
Record raw_tx : Type := {
  tx_mint : string;
  tx_timestamp : sqlval;
  tx_traderPublicKey : sqlval;
  tx_tx_type : sqlval;
  tx_token_amount : sqlval;
  tx_sol_amount : sqlval;
  tx_new_token_balance : sqlval;
  tx_bondingCurveKey : sqlval;
  tx_vTokensInBondingCurve : sqlval;
  tx_vSolInBondingCurve : sqlval;
  tx_marketCapSol : sqlval
}.

(** The file [token_data.db]: both tables, rows in insertion order. *)
Record Database : Type := {
  tokens : list token_row;
  raw_txs : list raw_tx
}.

Definition empty_db : Database := {| tokens := []; raw_txs := [] |}.

(** A connection to the file.  [PRAGMA foreign_keys] is a setting of the
    connection it is executed on, not of the file, and SQLite opens every
    connection with it off. *)
Record db_connection : Type := { foreign_keys : bool }.

Definition aiosqlite_connect : db_connection := {| foreign_keys := false |}.

Definition pragma_foreign_keys_on (c : db_connection) : db_connection :=
  {| foreign_keys := true |}.

(** [initialize_database]: on a connection of its own, which it closes on
    return, it switches foreign keys on and creates the two tables and the
    index if they do not exist. *)
Definition initialize_database (db : Database) : Database :=
  let c := pragma_foreign_keys_on aiosqlite_connect in
  db.

Definition has_token (m : string) (db : Database) : bool :=
  existsb (fun r => String.eqb (tk_mint r) m) (tokens db).

(** The rows of [tokens] with a given mint. *)
Definition token_rows (m : string) (db : Database) : list token_row :=
  filter (fun r => tk_mint r = m) (tokens db).

(** [INSERT OR IGNORE INTO tokens]: the statement is dropped when the primary
    key is taken.  The second component is the cursor's [rowcount]. *)
Definition insert_or_ignore_token (r : token_row) (db : Database) : Database * nat :=
  if has_token (tk_mint r) db then (db, 0%nat)
  else ({| tokens := tokens db ++ [r]; raw_txs := raw_txs db |}, 1%nat).

(** [INSERT INTO raw_txs]: refused on a connection that enforces foreign keys
    when [mint] is no row of [tokens]. *)
Definition insert_raw_tx (c : db_connection) (r : raw_tx) (db : Database) : exn + Database :=
  if foreign_keys c && negb (has_token (tx_mint r) db) then inl IntegrityError
  else inr {| tokens := tokens db; raw_txs := raw_txs db ++ [r] |}.

(** [SELECT mint FROM tokens] *)
Definition select_mints (db : Database) : list string := map tk_mint (tokens db).

(** ** The WebSocket manager ([class WebSocketManager]) *)

(** What goes out on the socket. *)
Inductive command : Type :=
| SubscribeNewToken                      (* {"method": "subscribeNewToken"} *)
| SubscribeTokenTrade (keys : list string).
                                         (* {"method": "subscribeTokenTrade", "keys": [...]} *)

(** [conn] is the connection object, named by the number of the
    [websockets.connect] call that returned it. *)
Record WebSocketManager : Type := {
  conn : option nat;
  active_tokens : gset string;
  reconnect_attempts : nat;
  pending_subscriptions : list string
}.

(** [__init__] *)
Definition new_manager : WebSocketManager :=
  {| conn := None; active_tokens := ∅; reconnect_attempts := 0;
     pending_subscriptions := [] |}.

(** [subscribe_token]: [pending_subscriptions.put(mint)] *)
Definition subscribe_token (mint : string) (m : WebSocketManager) : WebSocketManager :=
  {| conn := conn m; active_tokens := active_tokens m;
     reconnect_attempts := reconnect_attempts m;
     pending_subscriptions := pending_subscriptions m ++ [mint] |}.

(** The inner loop of [subscription_handler], from a non-empty queue until it
    is empty or a [send] raises.  [up] tells whether [send] goes through.
    The result is the subscribed set, the queue left, and the mints for which
    a command went out, in order.  When [send] raises the mint it was for is
    already taken off the queue and the handler's [except] ends the pass. *)
Fixpoint drain (up : bool) (queue : list string) (active : gset string)
  : gset string * list string * list string :=
  match queue with
  | [] => (active, [], [])
  | mint :: rest =>
      if bool_decide (mint ∈ active) then drain up rest active
      else if up then
        let '(active', remaining, sent) := drain up rest ({[mint]} ∪ active) in
        (active', remaining, mint :: sent)
      else (active, rest, [])
  end.

(** The mints for which one pass of the handler sends a command. *)
Definition handler_sent (up : bool) (m : WebSocketManager) : list string :=
  snd (drain up (pending_subscriptions m) (active_tokens m)).

Record Stats : Type := { processed_txs : nat; token_creations : nat }.

(** The state of the process: the manager, the counters of [main], the
    database file, every command sent so far with the connection it went out
    on, the number of connections opened, and the number of
    [subscription_handler] tasks started. *)
Record World : Type := {
  ws_manager : WebSocketManager;
  stats : Stats;
  db : Database;
  wire : list (nat * command);
  connections : nat;
  handler_tasks : nat
}.

Definition set_manager (m : WebSocketManager) (w : World) : World :=
  {| ws_manager := m; stats := stats w; db := db w; wire := wire w;
     connections := connections w; handler_tasks := handler_tasks w |}.

Definition set_db (d : Database) (w : World) : World :=
  {| ws_manager := ws_manager w; stats := stats w; db := d; wire := wire w;
     connections := connections w; handler_tasks := handler_tasks w |}.

Definition set_stats (s : Stats) (w : World) : World :=
  {| ws_manager := ws_manager w; stats := s; db := db w; wire := wire w;
     connections := connections w; handler_tasks := handler_tasks w |}.

(** [conn.send] on the current connection ([connect] has set [conn] before
    anything is sent). *)
Definition send (c : command) (w : World) : World :=
  match conn (ws_manager w) with
  | Some k =>
      {| ws_manager := ws_manager w; stats := stats w; db := db w;
         wire := wire w ++ [(k, c)];
         connections := connections w; handler_tasks := handler_tasks w |}
  | None => w
  end.

(** The commands that went out on connection [k]. *)
Definition sent_on (k : nat) (w : World) : list command :=
  map snd (filter (fun p => fst p = k) (wire w)).

(** One pass of a [subscription_handler] task over the queue. *)
Definition subscription_handler (up : bool) (w : World) : World :=
  let m := ws_manager w in
  let '(active', remaining, sent) := drain up (pending_subscriptions m) (active_tokens m) in
  let w' := fold_left (fun acc mint => send (SubscribeTokenTrade [mint]) acc) sent w in
  set_manager {| conn := conn m; active_tokens := active';
                 reconnect_attempts := reconnect_attempts m;
                 pending_subscriptions := remaining |} w'.

(** [websockets.connect] returned: [self.conn] is the new connection and the
    attempt counter is reset. *)
Definition connected (w : World) : World :=
  let m := ws_manager w in
  let k := S (connections w) in
  {| ws_manager := {| conn := Some k; active_tokens := active_tokens m;
                      reconnect_attempts := 0;
                      pending_subscriptions := pending_subscriptions m |};
     stats := stats w; db := db w; wire := wire w;
     connections := k; handler_tasks := handler_tasks w |}.

(** [initial_subscriptions], in its two steps. *)
Definition subscribe_new_token (w : World) : World := send SubscribeNewToken w.

Definition restore_subscriptions (w : World) : World :=
  set_manager (fold_left (fun m mint => subscribe_token mint m)
                         (select_mints (db w)) (ws_manager w)) w.

Definition initial_subscriptions (w : World) : World :=
  restore_subscriptions (subscribe_new_token w).

(** [asyncio.create_task(self.subscription_handler())] *)
Definition start_handler (w : World) : World :=
  {| ws_manager := ws_manager w; stats := stats w; db := db w; wire := wire w;
     connections := connections w; handler_tasks := S (handler_tasks w) |}.

(** How a pass through the [try] of [connect] can fail: [websockets.connect]
    raises; or it returns and the first [send] raises; or the read of the
    [tokens] table raises. *)
Inductive failure : Type :=
| ConnectRaises
| SendRaises
| SelectRaises.

(** What the [try] body did before it raised. *)
Definition failed_attempt (f : failure) (w : World) : World :=
  match f with
  | ConnectRaises => w
  | SendRaises => connected w
  | SelectRaises => subscribe_new_token (connected w)
  end.

(** The [except] of [connect], after the sleep: [reconnect_attempts += 1]. *)
Definition count_attempt (w : World) : World :=
  let m := ws_manager w in
  set_manager {| conn := conn m; active_tokens := active_tokens m;
                 reconnect_attempts := S (reconnect_attempts m);
                 pending_subscriptions := pending_subscriptions m |} w.

(** The delay [connect] computes after a failure, from the counter. *)
Definition next_delay (attempts : nat) : R :=
  Rmin Config.MAX_RECONNECT_DELAY
       (Config.INITIAL_RECONNECT_DELAY * exp (INR attempts)).

(** [math.exp(n)] raises [OverflowError] when [e^n] is beyond the largest
    float: [e^709] is about [8.2e307], [e^710] is not a float. *)
Definition math_exp_raises (n : nat) : bool := (710 <=? n)%nat.

(** The loop of [connect]: [fails] lists the passes that raise; the pass
    after them runs to the [return].  The result is the list of delays slept,
    in order, and the state on return.  The [except] clause computes the
    next delay after the sleep; an [OverflowError] of [math.exp] there
    leaves [connect].

    Granularity.  A call of [connect] is one step here: what [connect]
    itself does, in program order.  The coroutine suspends at
    [websockets.connect], at [conn.send], at the read of the table and at
    [asyncio.sleep], and the event loop may run there the handler tasks
    started by earlier calls, which are never cancelled; their passes are
    the [HandlerPass] events of a run, placed before or after a call, not
    inside it.  While no handler task exists ([handler_tasks] is zero, as
    at the call made by [main] before its loop) nothing else runs and the
    step is exact.  With handler tasks running, the fields they write (the
    wire, [active_tokens] and the queue) may differ at the [return] from
    what this step leaves; the fields they do not write (the connection,
    the counter, the tables and the statistics) do not. *)
Fixpoint connect_loop (fails : list failure) (delay : R) (w : World)
  : list R * (exn + World) :=
  match fails with
  | [] => ([], inr (start_handler (initial_subscriptions (connected w))))
  | f :: rest =>
      let w1 := count_attempt (failed_attempt f w) in
      let n := reconnect_attempts (ws_manager w1) in
      if math_exp_raises n then ([delay], inl OverflowError)
      else
        let '(slept, r) := connect_loop rest (next_delay n) w1 in
        (delay :: slept, r)
  end.

Definition connect (fails : list failure) (w : World) : list R * (exn + World) :=
  connect_loop fails Config.INITIAL_RECONNECT_DELAY w.

(** The value of [reconnect_attempts] with which each failing pass of the
    loop is entered: the attempt count from which the delay slept in that
    pass was computed. *)
Fixpoint attempt_counts (fails : list failure) (w : World) : list nat :=
  match fails with
  | [] => []
  | f :: rest =>
      reconnect_attempts (ws_manager w)
        :: attempt_counts rest (count_attempt (failed_attempt f w))
  end.

(** ** The receive loop ([main]) *)

(** How one pass of the loop body ends.  Every pass ends in the next
    iteration: [continue], the end of the body, or one of the [except]
    clauses, which only print. *)
Inductive note : Type :=
| Skipped            (* the validation's [continue] *)
| Ignored            (* a [txType] the body has no branch for *)
| Stored             (* the body ran to its end *)
| Failed (e : exn).  (* [except Exception]: "Processing error" *)

(** The entity identifier of the feed is a string and the [mint] columns are
    [TEXT]; a message that reaches a statement with a [mint] of another type
    is outside this model, and the pass is [Unmodelled]. *)
Inductive step_result : Type :=
| Next (w : World) (n : note)
| Unmodelled.

(** The fields the body extracts before it opens the database. *)
Record fields : Type := {
  signature : pyval;
  trader_pubkey : pyval;
  tx_type : pyval;
  token_amount : spec_float;
  sol_amount : spec_float;
  new_token_balance : spec_float;
  bonding_curve_key : pyval;
  v_tokens_bc : spec_float;
  v_sol_bc : spec_float;
  market_cap_sol : spec_float;
  pool : pyval
}.

(** The six fields the body passes through [float]. *)
Definition numeric_fields : list string :=
  ["tokenAmount"; "solAmount"; "newTokenBalance"; "vTokensInBondingCurve";
   "vSolInBondingCurve"; "marketCapSol"]%string.

(** A [float] that reads no string.  The closed examples below have no string
    in a field that goes through [float]; there the reader of strings is not
    consulted and this one fills its place. *)
Definition no_string_float : string -> option spec_float := fun _ => None.

Definition mint_key (data : gmap string pyval) : option string :=
  match data !! "mint"%string with
  | Some (PStr m) => Some m
  | _ => None
  end.

Definition count_creation (w : World) : World :=
  set_stats {| processed_txs := processed_txs (stats w);
               token_creations := S (token_creations (stats w)) |} w.

Definition count_tx (w : World) : World :=
  set_stats {| processed_txs := S (processed_txs (stats w));
               token_creations := token_creations (stats w) |} w.

(** [main] up to the loop: the database is initialised, the manager is fresh,
    and after [connect] the counters start at zero. *)
Definition boot (file : Database) : World :=
  {| ws_manager := new_manager;
     stats := {| processed_txs := 0; token_creations := 0 |};
     db := initialize_database file;
     wire := []; connections := 0; handler_tasks := 0 |}.

Definition start (fails : list failure) (file : Database) : exn + World :=
  snd (connect fails (boot file)).

(** The state in which [main] enters its loop when the first attempt to
    connect succeeds. *)
Definition started (file : Database) : World :=
  start_handler (initial_subscriptions (connected (boot file))).

(** ** Messages and tables of the scenarios *)

(** [{"mint":"ABC","txType":"create","name":"Foo","symbol":"FOO","initialBuy":5}] *)
Definition msg_create_ABC : gmap string pyval :=
  list_to_map [("mint", PStr "ABC"); ("txType", PStr "create"); ("name", PStr "Foo");
               ("symbol", PStr "FOO"); ("initialBuy", PInt 5)]%string.

(** [1.5] *)
Definition float_1_5 : spec_float := S754_finite false 6755399441055744 (-52).

(** [{"mint":"XYZ","txType":"buy","solAmount":1.5}] *)
Definition msg_buy_XYZ : gmap string pyval :=
  list_to_map [("mint", PStr "XYZ"); ("txType", PStr "buy");
               ("solAmount", PFloat float_1_5)]%string.

(** [{"mint":"ABC","txType":"create","initialBuy":null}] *)
Definition msg_create_null_liquidity : gmap string pyval :=
  list_to_map [("mint", PStr "ABC"); ("txType", PStr "create");
               ("initialBuy", PNone)]%string.

(** [{"mint":"ABC","name":"Foo"}] *)
Definition msg_without_txType : gmap string pyval :=
  list_to_map [("mint", PStr "ABC"); ("name", PStr "Foo")]%string.

(** [{"mint":"ABC","txType":"create","tokenAmount":[]}] *)
Definition msg_empty_list_amount : gmap string pyval :=
  list_to_map [("mint", PStr "ABC"); ("txType", PStr "create");
               ("tokenAmount", PList [])]%string.

(** [{"mint":"ABC","txType":"create","tokenAmount":[1]}] *)
Definition msg_list_amount : gmap string pyval :=
  list_to_map [("mint", PStr "ABC"); ("txType", PStr "create");
               ("tokenAmount", PList [PInt 1])]%string.

(** A database file that holds the one token [A]. *)
Definition token_A : token_row :=
  {| tk_mint := "A"; tk_timestamp := SInteger 1700000000;
     tk_initial_sol_liquidity := SInteger 0; tk_name := SText "Ay"; tk_symbol := SText "A" |}.

Definition file_A : Database := {| tokens := [token_A]; raw_txs := [] |}.

(** A manager subscribed to [A], with nothing pending. *)
Definition manager_A : WebSocketManager :=
  {| conn := Some 1%nat; active_tokens := {["A"%string]}; reconnect_attempts := 0;
     pending_subscriptions := [] |}.

Section Ingestion.

(** [float(s)] for a [str]: the value read, or [None] where Python raises
    [ValueError]. *)
Variable float_of_str : string -> option spec_float.

(** The builtin [float]. *)
Definition py_float (v : pyval) : exn + spec_float :=
  match v with
  | PNone => inl TypeError
  | PBool b => inr (if b then float_one else float_zero)
  | PInt z => float_of_int z
  | PFloat f => inr f
  | PStr s => match float_of_str s with
              | Some f => inr f
              | None => inl ValueError
              end
  | PList _ | PDict _ => inl TypeError
  end.

(** [float(data.get(k, 0) or 0)] *)
Definition get_float (data : gmap string pyval) (k : string) : exn + spec_float :=
  py_float (py_or (dict_get data k (PInt 0)) (PInt 0)).

(** Lines 218-228 of [main.py], in order; the first [float] that raises
    ends the pass. *)
Definition extract_fields (data : gmap string pyval) : exn + fields :=
  match get_float data "tokenAmount" with inl e => inl e | inr ta =>
  match get_float data "solAmount" with inl e => inl e | inr sa =>
  match get_float data "newTokenBalance" with inl e => inl e | inr nb =>
  match get_float data "vTokensInBondingCurve" with inl e => inl e | inr vt =>
  match get_float data "vSolInBondingCurve" with inl e => inl e | inr vs =>
  match get_float data "marketCapSol" with inl e => inl e | inr mc =>
    inr {| signature := dict_get data "signature" PNone;
           trader_pubkey := dict_get data "traderPublicKey" PNone;
           tx_type := dict_get data "txType" PNone;
           token_amount := ta;
           sol_amount := sa;
           new_token_balance := nb;
           bonding_curve_key := dict_get data "bondingCurveKey" PNone;
           v_tokens_bc := vt;
           v_sol_bc := vs;
           market_cap_sol := mc;
           pool := dict_get data "pool" PNone |}
  end end end end end end.

(** The parameters of the [INSERT OR IGNORE INTO tokens], bound in the
    order of the statement. *)
Definition token_params (m : string) (data : gmap string pyval) : exn + token_row :=
  match bind (dict_get data "timestamp" PNone) with inl e => inl e | inr ts =>
  match bind (dict_get data "initialBuy" (PInt 0)) with inl e => inl e | inr ib =>
  match bind (dict_get data "name" (PStr "")) with inl e => inl e | inr nm =>
  match bind (dict_get data "symbol" (PStr "")) with inl e => inl e | inr sy =>
    inr {| tk_mint := m; tk_timestamp := ts; tk_initial_sol_liquidity := ib;
           tk_name := nm; tk_symbol := sy |}
  end end end end.

(** The parameters of the [INSERT INTO raw_txs]. *)
Definition raw_params (m : string) (data : gmap string pyval) (f : fields) : exn + raw_tx :=
  match bind (dict_get data "timestamp" PNone) with inl e => inl e | inr ts =>
  match bind (trader_pubkey f) with inl e => inl e | inr tp =>
  match bind (tx_type f) with inl e => inl e | inr ty =>
  match bind (bonding_curve_key f) with inl e => inl e | inr bk =>
    inr {| tx_mint := m; tx_timestamp := ts; tx_traderPublicKey := tp;
           tx_tx_type := ty;
           tx_token_amount := SReal (token_amount f);
           tx_sol_amount := SReal (sol_amount f);
           tx_new_token_balance := SReal (new_token_balance f);
           tx_bondingCurveKey := bk;
           tx_vTokensInBondingCurve := SReal (v_tokens_bc f);
           tx_vSolInBondingCurve := SReal (v_sol_bc f);
           tx_marketCapSol := SReal (market_cap_sol f) |}
  end end end end.

(** [if tx_type == 'create':] the insert into [tokens] and its commit, then
    [subscribe_token] and the creation counter. *)
Definition on_create (m : string) (data : gmap string pyval) (w : World) : exn + World :=
  match token_params m data with
  | inl e => inl e
  | inr row =>
      let w1 := set_db (fst (insert_or_ignore_token row (db w))) w in
      let w2 := set_manager (subscribe_token m (ws_manager w1)) w1 in
      inr (count_creation w2)
  end.

(** [if tx_type in ('create', 'buy', 'sell'):] the insert into [raw_txs] and
    its commit, then the transaction counter for a buy or a sell.  The
    state comes back with the exception, if any. *)
Definition on_record (c : db_connection) (m : string) (data : gmap string pyval)
           (f : fields) (w : World) : World * option exn :=
  match raw_params m data f with
  | inl e => (w, Some e)
  | inr r =>
      match insert_raw_tx c r (db w) with
      | inl e => (w, Some e)
      | inr d =>
          let w1 := set_db d w in
          (if str_eq (tx_type f) "buy" || str_eq (tx_type f) "sell"
           then count_tx w1 else w1, None)
      end
  end.

(** The body under [async with aiosqlite.connect(Config.DB_PATH) as db]. *)
Definition route (w : World) (data : gmap string pyval) (f : fields) : step_result :=
  let c := aiosqlite_connect in
  let ty := tx_type f in
  if str_eq ty "create" || str_eq ty "buy" || str_eq ty "sell" then
    match mint_key data with
    | None => Unmodelled
    | Some m =>
        match (if str_eq ty "create" then on_create m data w else inr w) with
        | inl e => Next w (Failed e)
        | inr w1 =>
            match on_record c m data f w1 with
            | (w2, None) => Next w2 Stored
            | (w2, Some e) => Next w2 (Failed e)
            end
        end
    end
  else Next w Ignored.

(** The loop body from [json.loads] on, for a message that decodes to
    [message], received at [receive_time]. *)
Definition process_message (w : World) (receive_time : Z) (message : pyval) : step_result :=
  match message with
  | PDict d =>
      let data := <["timestamp"%string := PInt receive_time]> d in
      if negb (has_key data "mint" && has_key data "txType") then Next w Skipped
      else match extract_fields data with
           | inl e => Next w (Failed e)
           | inr f => route w data f
           end
  | _ => Next w (Failed TypeError)   (* [data['timestamp'] = ...] on a non-dict *)
  end.

(** What the process meets while it runs. *)
Inductive event : Type :=
| ConnectionClosed (fails : list failure)
    (* [recv] raises; [connect] then fails as listed before it returns *)
| InvalidJSON
| Message (receive_time : Z) (v : pyval)
| HandlerPass (up : bool).
    (* a [subscription_handler] task finds the queue non-empty *)

(** The process after an event: in its loop, ended by an exception that
    nothing catches, or outside the model. *)
Inductive outcome : Type :=
| Running (w : World)
| Crashed (e : exn)
| OutOfModel.

Definition step (w : World) (e : event) : outcome :=
  match e with
  | ConnectionClosed fails =>
      match snd (connect fails w) with
      | inr w' => Running w'
      | inl e => Crashed e
      end
  | InvalidJSON => Running w
  | Message t v =>
      match process_message w t v with
      | Next w' _ => Running w'
      | Unmodelled => OutOfModel
      end
  | HandlerPass up => Running (subscription_handler up w)
  end.

Fixpoint run (es : list event) (w : World) : outcome :=
  match es with
  | [] => Running w
  | e :: rest =>
      match step w e with
      | Running w' => run rest w'
      | o => o
      end
  end.

(** No exception. *)
Definition is_ok {A : Type} (r : exn + A) : bool :=
  match r with
  | inr _ => true
  | inl _ => false
  end.

(** Each of the six calls of [float] in the extraction returns. *)
Definition floats_ok (data : gmap string pyval) : bool :=
  forallb (fun k => is_ok (get_float data k)) numeric_fields.

(** A creation message the body can store, received at [t]: every [float]
    of the extraction returns and [sqlite3] accepts every parameter of the
    two statements. *)
Definition creation_ok (t : Z) (d : gmap string pyval) : bool :=
  let data := <["timestamp"%string := PInt t]> d in
  floats_ok data &&
  is_ok (bind (dict_get data "timestamp" PNone)) &&
  is_ok (bind (dict_get data "initialBuy" (PInt 0))) &&
  is_ok (bind (dict_get data "name" (PStr ""))) &&
  is_ok (bind (dict_get data "symbol" (PStr ""))) &&
  is_ok (bind (dict_get data "traderPublicKey" PNone)) &&
  is_ok (bind (dict_get data "bondingCurveKey" PNone)).

End Ingestion.

(** ** The statistics printer ([stats_printer]) *)

(** The three figures [stats_printer] reads from the state it shares with
    the loop: the number of subscribed mints and the two counters of
    [main]. *)
Record snapshot : Type := {
  token_count : nat;
  shown_processed_txs : nat;
  shown_token_creations : nat
}.

Definition stats_snapshot (w : World) : snapshot :=
  {| token_count := size (active_tokens (ws_manager w));
     shown_processed_txs := processed_txs (stats w);
     shown_token_creations := token_creations (stats w) |}.

(** ** Measures of a run *)

(** A row of [raw_txs] written for a buy or a sell. *)
Definition is_trade (r : raw_tx) : bool :=
  match tx_tx_type r with
  | SText s => String.eqb s "buy" || String.eqb s "sell"
  | _ => false
  end.

Definition trade_rows (d : Database) : nat := length (List.filter is_trade (raw_txs d)).

(** The connection losses among the events of a run. *)
Definition is_reconnect (e : event) : bool :=
  match e with
  | ConnectionClosed _ => true
  | _ => false
  end.

Definition reconnects (es : list event) : nat := length (List.filter is_reconnect es).

(** A buy or a sell the body can store, received at [t]: every [float] of the
    extraction returns and [sqlite3] accepts every parameter of the insert
    into [raw_txs]. *)
Definition trade_ok (float_of_str : string -> option spec_float)
           (t : Z) (d : gmap string pyval) : bool :=
  let data := <["timestamp"%string := PInt t]> d in
  floats_ok float_of_str data &&
  is_ok (bind (dict_get data "timestamp" PNone)) &&
  is_ok (bind (dict_get data "traderPublicKey" PNone)) &&
  is_ok (bind (dict_get data "bondingCurveKey" PNone)).

(** The keys of a message that the body reads but whose values reach no
    statement, and [uri], which the creation branch reads into a local that
    is not used. *)
Definition unused_fields : list string := ["signature"; "pool"; "uri"]%string.

(** [{"mint":"ABC","txType":"sell","tokenAmount":10,"traderPublicKey":"T1"}] *)
Definition msg_sell_ABC : gmap string pyval :=
  list_to_map [("mint", PStr "ABC"); ("txType", PStr "sell");
               ("tokenAmount", PInt 10); ("traderPublicKey", PStr "T1")]%string.

(** [{"mint":"ABC","txType":"migrate"}] *)
Definition msg_migrate_ABC : gmap string pyval :=
  list_to_map [("mint", PStr "ABC"); ("txType", PStr "migrate")]%string.

(** [{"mint":"ABC","txType":"create","traderPublicKey":["T1"]}] *)
Definition msg_create_list_trader : gmap string pyval :=
  list_to_map [("mint", PStr "ABC"); ("txType", PStr "create");
               ("traderPublicKey", PList [PStr "T1"])]%string.

(** [{"mint":"ABC","txType":"create","name":["Foo"]}] *)
Definition msg_create_list_name : gmap string pyval :=
  list_to_map [("mint", PStr "ABC"); ("txType", PStr "create");
               ("name", PList [PStr "Foo"])]%string.

(** A manager subscribed to [A] with [A], [B], [C] pending. *)
Definition manager_ABC : WebSocketManager :=
  {| conn := Some 1%nat; active_tokens := {["A"%string]}; reconnect_attempts := 0;
     pending_subscriptions := ["A"; "B"; "C"]%string |}.

Definition world_ABC : World :=
  {| ws_manager := manager_ABC;
     stats := {| processed_txs := 0; token_creations := 0 |};
     db := file_A; wire := [(1%nat, SubscribeNewToken)];
     connections := 1; handler_tasks := 1 |}.

(** [sqlite3] accepts every parameter of the insert into [tokens] for a
    message received at [t]. *)
Definition token_ok (t : Z) (d : gmap string pyval) : bool :=
  let data := <["timestamp"%string := PInt t]> d in
  is_ok (bind (dict_get data "timestamp" PNone)) &&
  is_ok (bind (dict_get data "initialBuy" (PInt 0))) &&
  is_ok (bind (dict_get data "name" (PStr ""))) &&
  is_ok (bind (dict_get data "symbol" (PStr ""))).

(** Every mint the manager holds, subscribed or pending, is a row of
    [tokens]. *)
Definition mints_stored (w : World) : Prop :=
  forall m, m ∈ active_tokens (ws_manager w) \/ m ∈ pending_subscriptions (ws_manager w) ->
            m ∈ select_mints (db w).

(** A run: the connection drops and comes back at the second attempt, [ABC]
    is created, the handler runs, [ABC] is sold, the handler runs again. *)
Definition scenario_events : list event :=
  [ConnectionClosed [ConnectRaises]; Message 1700000000 (PDict msg_create_ABC);
   HandlerPass true; Message 1700000060 (PDict msg_sell_ABC); HandlerPass true].

(** The state that run ends in, from a table that holds [A]. *)
Definition scenario_end : World :=
  Eval vm_compute in
    match run no_string_float scenario_events (started file_A) with
    | Running w => w
    | _ => started file_A
    end.

(** * Properties *)

(** ** Python floats *)

Example float_of_int_0 : float_of_int 0 = inr float_zero.
Proof. reflexivity. Qed.

Example float_of_int_1 : float_of_int 1 = inr float_one.
Proof. reflexivity. Qed.

Example float_of_int_too_large : float_of_int (2 ^ 1024) = inl OverflowError.
Proof. reflexivity. Qed.

Example float_1_5_is_three_halves : binary_normalize prec emax 3 (-1) false = float_1_5.
Proof. reflexivity. Qed.

(** ** The [tokens] table *)

Lemma has_token_spec (m : string) (d : Database) :
  has_token m d = true <-> m ∈ select_mints d.
Proof.
  unfold has_token, select_mints. destruct d as [tk rx]; simpl. clear rx.
  induction tk as [|r tk IH]; simpl.
  - split; [discriminate | intros H; inversion H].
  - rewrite orb_true_iff, IH, String.eqb_eq, elem_of_cons. split; (intros [H | H]; [left; congruence | right; exact H]).
Qed.

Lemma has_token_false (m : string) (d : Database) :
  has_token m d = false <-> m ∉ select_mints d.
Proof.
  rewrite <- has_token_spec. destruct (has_token m d); split; congruence.
Qed.

Lemma token_rows_fresh (m : string) (d : Database) :
  has_token m d = false -> token_rows m d = [].
Proof.
  rewrite has_token_false. unfold token_rows, select_mints.
  destruct d as [tk rx]; simpl. clear rx.
  induction tk as [|r tk IH]; simpl; intros H; [reflexivity|].
  rewrite not_elem_of_cons in H. destruct H as [Hne Hin].
  rewrite filter_cons. destruct (decide (tk_mint r = m)) as [E|_]; [congruence|].
  auto.
Qed.

Lemma has_token_insert (r : token_row) (d : Database) :
  has_token (tk_mint r) (fst (insert_or_ignore_token r d)) = true.
Proof.
  unfold insert_or_ignore_token.
  destruct (has_token (tk_mint r) d) eqn:E; simpl; [exact E|].
  unfold has_token; simpl. rewrite existsb_app; simpl.
  rewrite String.eqb_refl. now rewrite !orb_true_r.
Qed.

(** A key that is taken: the statement changes nothing and its [rowcount] is
    zero. *)
Lemma insert_or_ignore_taken (r : token_row) (d : Database) :
  has_token (tk_mint r) d = true -> insert_or_ignore_token r d = (d, 0%nat).
Proof. unfold insert_or_ignore_token. now intros ->. Qed.

Lemma insert_or_ignore_fresh (r : token_row) (d : Database) :
  has_token (tk_mint r) d = false ->
  insert_or_ignore_token r d =
    ({| tokens := tokens d ++ [r]; raw_txs := raw_txs d |}, 1%nat).
Proof. unfold insert_or_ignore_token. now intros ->. Qed.

Lemma insert_or_ignore_raw_txs (r : token_row) (d : Database) :
  raw_txs (fst (insert_or_ignore_token r d)) = raw_txs d.
Proof. unfold insert_or_ignore_token. now destruct (has_token _ _). Qed.

(** The foreign key of [raw_txs] is checked on a connection that has the
    pragma on, and on no other. *)
Lemma insert_raw_tx_enforced (c : db_connection) (r : raw_tx) (d : Database) :
  foreign_keys c = true -> has_token (tx_mint r) d = false ->
  insert_raw_tx c r d = inl IntegrityError.
Proof. unfold insert_raw_tx. now intros -> ->. Qed.

Lemma insert_raw_tx_unenforced (c : db_connection) (r : raw_tx) (d : Database) :
  foreign_keys c = false ->
  insert_raw_tx c r d = inr {| tokens := tokens d; raw_txs := raw_txs d ++ [r] |}.
Proof. unfold insert_raw_tx. now intros ->. Qed.

(** The primary key stays a key. *)
Lemma insert_or_ignore_unique (r : token_row) (d : Database) :
  NoDup (select_mints d) -> NoDup (select_mints (fst (insert_or_ignore_token r d))).
Proof.
  intros Hnd. unfold insert_or_ignore_token.
  destruct (has_token (tk_mint r) d) eqn:E; simpl; [exact Hnd|].
  apply has_token_false in E. unfold select_mints in *; simpl.
  rewrite map_app; simpl. apply NoDup_app. split; [exact Hnd|].
  split; [|apply NoDup_singleton].
  intros x Hx Hx'. apply list_elem_of_singleton in Hx'. subst. contradiction.
Qed.

(** C5.  A mint inserted twice: the first insert (the mint was not in the
    table) adds its row and reports one row written; the second writes
    nothing, reports zero rows, and leaves the table as the first left it,
    so the table holds exactly one row for the mint, the first one. *)
Theorem insert_token_twice (d : Database) (r1 r2 : token_row) :
  tk_mint r2 = tk_mint r1 ->
  has_token (tk_mint r1) d = false ->
  let first := insert_or_ignore_token r1 d in
  let second := insert_or_ignore_token r2 (fst first) in
  snd first = 1%nat /\
  snd second = 0%nat /\
  fst second = fst first /\
  token_rows (tk_mint r1) (fst second) = [r1].
Proof.
  intros Hk Hfresh first second.
  assert (Hfirst : first = ({| tokens := tokens d ++ [r1]; raw_txs := raw_txs d |}, 1%nat))
    by (apply insert_or_ignore_fresh; exact Hfresh).
  assert (Hsecond : second = (fst first, 0%nat)).
  { apply insert_or_ignore_taken. rewrite Hk. apply has_token_insert. }
  rewrite Hsecond, Hfirst; simpl. repeat split.
  unfold token_rows; simpl. rewrite filter_app.
  fold (token_rows (tk_mint r1) d). rewrite token_rows_fresh by exact Hfresh.
  simpl. rewrite filter_cons. destruct (decide (tk_mint r1 = tk_mint r1)); [reflexivity|congruence].
Qed.

(** ** The subscription queue *)

Lemma drain_up (queue : list string) (active : gset string) :
  exists sent,
    drain true queue active = (active ∪ list_to_set queue, [], sent) /\
    NoDup sent /\
    forall x, x ∈ sent <-> x ∈ queue /\ x ∉ active.
Proof.
  revert active. induction queue as [|mint rest IH]; intros active; simpl.
  - exists []. split; [f_equal; f_equal; set_solver|].
    split; [constructor|]. set_solver.
  - case_bool_decide as Hin.
    + destruct (IH active) as (sent & -> & Hnd & Hsent). exists sent.
      split; [f_equal; f_equal; set_solver|]. split; [exact Hnd|].
      intros x. rewrite Hsent. set_solver.
    + destruct (IH ({[mint]} ∪ active)) as (sent & -> & Hnd & Hsent).
      exists (mint :: sent). split; [f_equal; f_equal; set_solver|]. split.
      * constructor; [|exact Hnd]. rewrite Hsent. set_solver.
      * intros x. rewrite elem_of_cons, Hsent. split.
        -- intros [-> | [H1 H2]]; set_solver.
        -- intros [H1 H2]. destruct (decide (x = mint)); set_solver.
Qed.

(** While [send] raises, no command goes out. *)
Lemma drain_down (queue : list string) (active : gset string) :
  snd (drain false queue active) = [] /\ fst (fst (drain false queue active)) = active.
Proof.
  induction queue as [|mint rest IH]; simpl; [auto|].
  case_bool_decide; [exact IH | auto].
Qed.

Lemma handler_sent_up (m : WebSocketManager) :
  NoDup (handler_sent true m) /\
  forall x, x ∈ handler_sent true m <->
            x ∈ pending_subscriptions m /\ x ∉ active_tokens m.
Proof.
  unfold handler_sent.
  destruct (drain_up (pending_subscriptions m) (active_tokens m)) as (sent & -> & H).
  exact H.
Qed.

Lemma NoDup_filter_one (l : list string) (x : string) :
  NoDup l -> x ∈ l -> filter (eq x) l = [x].
Proof.
  induction 1 as [|y l Hy Hnd IH]; intros Hin; [inversion Hin|].
  rewrite filter_cons. destruct (decide (x = y)) as [<-|Hne].
  - f_equal. clear IH Hin Hnd. induction l as [|z l IH]; [reflexivity|].
    rewrite filter_cons. rewrite not_elem_of_cons in Hy. destruct Hy as [Hz Hl].
    destruct (decide (x = z)); [congruence | auto].
  - apply IH. rewrite elem_of_cons in Hin. destruct Hin; [congruence | assumption].
Qed.

(** The commands of a pass go out on the current connection, one per mint
    of [handler_sent], each with that mint as its only key. *)
Lemma send_all_wire (k : nat) (sent : list string) (w : World) :
  conn (ws_manager w) = Some k ->
  let w' := fold_left (fun acc mint => send (SubscribeTokenTrade [mint]) acc) sent w in
  wire w' = wire w ++ map (fun mint => (k, SubscribeTokenTrade [mint])) sent /\
  ws_manager w' = ws_manager w /\ db w' = db w /\ stats w' = stats w /\
  connections w' = connections w /\ handler_tasks w' = handler_tasks w.
Proof.
  revert w. induction sent as [|x sent IH]; intros w Hc; simpl.
  - now rewrite app_nil_r.
  - assert (Hs : send (SubscribeTokenTrade [x]) w =
                 {| ws_manager := ws_manager w; stats := stats w; db := db w;
                    wire := wire w ++ [(k, SubscribeTokenTrade [x])];
                    connections := connections w; handler_tasks := handler_tasks w |})
      by (unfold send; now rewrite Hc).
    rewrite Hs. match goal with |- context [fold_left ?f sent ?w0] =>
      destruct (IH w0 Hc) as (H1 & H2 & H3 & H4 & H5 & H6) end.
    simpl in *. rewrite H1, H2, H3, H4, H5, H6, <- app_assoc. now simpl.
Qed.

Lemma subscription_handler_wire (up : bool) (k : nat) (w : World) :
  conn (ws_manager w) = Some k ->
  wire (subscription_handler up w) =
    wire w ++ map (fun mint => (k, SubscribeTokenTrade [mint]))
                  (handler_sent up (ws_manager w)).
Proof.
  intros Hc. unfold subscription_handler, handler_sent.
  destruct (drain up _ _) as [[a' rem] sent]; simpl.
  now destruct (send_all_wire k sent w Hc) as (-> & _).
Qed.

(** C6 (as amended).  [subscribe_token] puts the mint on the queue whether or
    not it is subscribed.  A pass of the handler whose sends go through sends
    no command for a mint that is in the subscribed set, however often it was
    enqueued; for a mint that is not, enqueued twice before the pass, it
    sends exactly one; no pass sends two commands for one mint; and the
    subscribed set, a set, lists every mint once. *)
Theorem subscription_dedup (m : WebSocketManager) (mint : string) :
  let once := subscribe_token mint m in
  let twice := subscribe_token mint once in
  pending_subscriptions once = pending_subscriptions m ++ [mint] /\
  (mint ∈ active_tokens m ->
     (mint ∉ handler_sent true once) /\ (mint ∉ handler_sent true twice)) /\
  (mint ∉ active_tokens m -> filter (eq mint) (handler_sent true twice) = [mint]) /\
  NoDup (handler_sent true twice) /\
  NoDup (elements (fst (fst (drain true (pending_subscriptions twice) (active_tokens twice))))).
Proof.
  intros once twice. split; [reflexivity|].
  destruct (handler_sent_up once) as [_ Honce].
  destruct (handler_sent_up twice) as [Hnd Htwice].
  split; [|split; [|split; [exact Hnd | apply NoDup_elements]]].
  - intros Hin. rewrite Honce, Htwice. simpl. tauto.
  - intros Hout. apply NoDup_filter_one; [exact Hnd|].
    rewrite Htwice. simpl. split; [|exact Hout]. set_solver.
Qed.

(** ** [connect] *)

Lemma restore_manager (mints : list string) (m : WebSocketManager) :
  let m' := fold_left (fun m mint => subscribe_token mint m) mints m in
  conn m' = conn m /\ active_tokens m' = active_tokens m /\
  reconnect_attempts m' = reconnect_attempts m /\
  pending_subscriptions m' = pending_subscriptions m ++ mints.
Proof.
  revert m. induction mints as [|x mints IH]; intros m; simpl.
  - now rewrite app_nil_r.
  - destruct (IH (subscribe_token x m)) as (H1 & H2 & H3 & H4).
    rewrite H1, H2, H3, H4. simpl. now rewrite <- app_assoc.
Qed.

Lemma send_manager (c : command) (w : World) : ws_manager (send c w) = ws_manager w.
Proof. unfold send. now destruct (conn (ws_manager w)). Qed.

(** What a pass of [connect] that reaches the [return] leaves: a new
    connection, the counter at zero, the creation stream subscribed on the
    new connection, every mint of the table on the queue, and the subscribed
    set as it was. *)
Lemma connect_returns (w : World) :
  let w' := start_handler (initial_subscriptions (connected w)) in
  conn (ws_manager w') = Some (S (connections w)) /\
  reconnect_attempts (ws_manager w') = 0%nat /\
  active_tokens (ws_manager w') = active_tokens (ws_manager w) /\
  pending_subscriptions (ws_manager w') =
    pending_subscriptions (ws_manager w) ++ select_mints (db w) /\
  wire w' = wire w ++ [(S (connections w), SubscribeNewToken)] /\
  db w' = db w /\ stats w' = stats w.
Proof.
  unfold start_handler, initial_subscriptions, restore_subscriptions,
    subscribe_new_token, send, connected; simpl.
  match goal with |- context [fold_left ?f ?l ?m0] =>
    destruct (restore_manager l m0) as (H1 & H2 & H3 & H4) end.
  simpl in *. now rewrite H1, H2, H3, H4.
Qed.

(** The counter is zero whenever [connect] returns. *)
Lemma connect_loop_resets (fails : list failure) (delay : R) (w w' : World) :
  snd (connect_loop fails delay w) = inr w' ->
  reconnect_attempts (ws_manager w') = 0%nat.
Proof.
  revert delay w. induction fails as [|f rest IH]; intros delay w.
  - cbn [connect_loop snd]. intros [= <-]. apply (connect_returns w).
  - cbn [connect_loop]. destruct (math_exp_raises _); [discriminate|].
    match goal with |- context [connect_loop rest ?d ?w1] =>
      specialize (IH d w1); destruct (connect_loop rest d w1) as [slept r] end.
    exact IH.
Qed.

Lemma next_delay_0 : next_delay 0 = Config.INITIAL_RECONNECT_DELAY.
Proof.
  unfold next_delay, Config.INITIAL_RECONNECT_DELAY, Config.MAX_RECONNECT_DELAY.
  simpl. rewrite exp_0. rewrite Rmin_right; lra.
Qed.

Lemma count_attempt_counter (w : World) :
  reconnect_attempts (ws_manager (count_attempt w)) = S (reconnect_attempts (ws_manager w)).
Proof. reflexivity. Qed.

(** While [websockets.connect] raises [n + 1] times in a row and the counter
    stays under 710, [connect] sleeps the delay in hand, then [next_delay] of
    the counter after each failure but the last, and returns. *)
Lemma connect_loop_slept (n : nat) (delay : R) (w : World) :
  (reconnect_attempts (ws_manager w) + S n < 710)%nat ->
  fst (connect_loop (repeat ConnectRaises (S n)) delay w) =
    delay :: map next_delay (seq (S (reconnect_attempts (ws_manager w))) n) /\
  exists w', snd (connect_loop (repeat ConnectRaises (S n)) delay w) = inr w'.
Proof.
  revert delay w. induction n as [|n IH]; intros delay w Hlt.
  - cbn [repeat connect_loop failed_attempt]. rewrite count_attempt_counter.
    unfold math_exp_raises. destruct (Nat.leb_spec 710 (S (reconnect_attempts (ws_manager w))));
      [lia|]. cbn. eauto.
  - change (repeat ConnectRaises (S (S n))) with (ConnectRaises :: repeat ConnectRaises (S n)).
    cbn [connect_loop failed_attempt]. rewrite count_attempt_counter.
    unfold math_exp_raises. destruct (Nat.leb_spec 710 (S (reconnect_attempts (ws_manager w))));
      [lia|].
    specialize (IH (next_delay (S (reconnect_attempts (ws_manager w)))) (count_attempt w)).
    rewrite count_attempt_counter in IH.
    destruct IH as [Hs [w' Hw']]; [lia|].
    destruct (connect_loop (repeat ConnectRaises (S n)) _ _) as [slept r].
    cbn [fst snd] in *. rewrite Hs. split; [reflexivity | eauto].
Qed.

(** At the 710th failure in a row [math.exp] raises and the exception leaves
    [connect]. *)
Lemma connect_loop_overflows (n : nat) (delay : R) (w : World) :
  (reconnect_attempts (ws_manager w) + S n = 710)%nat ->
  snd (connect_loop (repeat ConnectRaises (S n)) delay w) = inl OverflowError.
Proof.
  revert delay w. induction n as [|n IH]; intros delay w Hlt.
  - cbn [repeat connect_loop failed_attempt]. rewrite count_attempt_counter.
    unfold math_exp_raises.
    destruct (Nat.leb_spec 710 (S (reconnect_attempts (ws_manager w)))); [reflexivity | lia].
  - change (repeat ConnectRaises (S (S n))) with (ConnectRaises :: repeat ConnectRaises (S n)).
    cbn [connect_loop failed_attempt]. rewrite count_attempt_counter.
    unfold math_exp_raises.
    destruct (Nat.leb_spec 710 (S (reconnect_attempts (ws_manager w)))); [lia|].
    specialize (IH (next_delay (S (reconnect_attempts (ws_manager w)))) (count_attempt w)).
    rewrite count_attempt_counter in IH.
    destruct (connect_loop (repeat ConnectRaises (S n)) _ _) as [slept r].
    apply IH. lia.
Qed.

Lemma connect_slept (n : nat) (w : World) :
  reconnect_attempts (ws_manager w) = 0%nat ->
  (n < 710)%nat ->
  fst (connect (repeat ConnectRaises n) w) = map next_delay (seq 0 n) /\
  exists w', snd (connect (repeat ConnectRaises n) w) = inr w'.
Proof.
  intros H0 Hn. unfold connect. destruct n as [|n]; [cbn; eauto|].
  destruct (connect_loop_slept n Config.INITIAL_RECONNECT_DELAY w) as [Hs Hw]; [lia|].
  rewrite Hs, H0. cbn [seq map]. now rewrite next_delay_0.
Qed.

(** At the top of every pass of the loop the delay in hand is [next_delay]
    of the counter, so the delay slept in a failing pass is [next_delay] of
    the count with which the pass was entered, whatever raised. *)
Lemma connect_loop_by_count (fails : list failure) (w w' : World) :
  snd (connect_loop fails (next_delay (reconnect_attempts (ws_manager w))) w) = inr w' ->
  fst (connect_loop fails (next_delay (reconnect_attempts (ws_manager w))) w)
    = map next_delay (attempt_counts fails w).
Proof.
  revert w. induction fails as [|f rest IH]; intros w.
  - reflexivity.
  - cbn [connect_loop attempt_counts map].
    destruct (math_exp_raises _); [discriminate|].
    set (w1 := count_attempt (failed_attempt f w)).
    specialize (IH w1).
    destruct (connect_loop rest _ w1) as [slept r]. cbn [fst snd] in *.
    intros Hr. now rewrite (IH Hr).
Qed.

(** While [websockets.connect] raises, the counter goes up by one a pass. *)
Lemma attempt_counts_connect_raises (n : nat) (w : World) :
  attempt_counts (repeat ConnectRaises n) w = seq (reconnect_attempts (ws_manager w)) n.
Proof.
  revert w. induction n as [|n IH]; intros w; [reflexivity|].
  cbn [repeat attempt_counts seq failed_attempt].
  now rewrite IH, count_attempt_counter.
Qed.

(** C3.  [connect] starts from the configured initial delay; after a failed
    pass it sleeps the delay in hand, increments the attempt counter and
    computes the next delay from the counter [n] as
    [min(MAX, INITIAL * e^n)].  Entered with the counter at zero:
    - when [websockets.connect] raises [n] times in a row ([n] under 710,
      where [math.exp] overflows) the attempts are made at the counts
      [0 .. n - 1], the delay slept after the attempt made at count [k] is
      [min(MAX, INITIAL * e^k)], there are [n] sleeps, [connect] returns and
      the counter is zero when it does;
    - whatever raises in the failing passes, if [connect] returns then
      every delay slept is [min(MAX, INITIAL * e^k)] for the count [k] with
      which its pass was entered, and the counter is zero on return;
    - when [websockets.connect] raises 710 times in a row, no delay is
      computed for the count 710, where the formula gives the cap:
      [math.exp] raises [OverflowError] before [min] is applied, and the
      exception leaves [connect]. *)
Theorem backoff_by_attempt_count (w : World) :
  reconnect_attempts (ws_manager w) = 0%nat ->
  (forall n : nat, (n < 710)%nat ->
     attempt_counts (repeat ConnectRaises n) w = seq 0 n /\
     (forall k : nat, (k < n)%nat ->
        fst (connect (repeat ConnectRaises n) w) !! k
          = Some (Rmin Config.MAX_RECONNECT_DELAY
                       (Config.INITIAL_RECONNECT_DELAY * exp (INR k)))) /\
     length (fst (connect (repeat ConnectRaises n) w)) = n /\
     exists w', snd (connect (repeat ConnectRaises n) w) = inr w' /\
                reconnect_attempts (ws_manager w') = 0%nat) /\
  (forall (fails : list failure) (w' : World),
     snd (connect fails w) = inr w' ->
     fst (connect fails w)
       = map (fun k : nat => Rmin Config.MAX_RECONNECT_DELAY
                               (Config.INITIAL_RECONNECT_DELAY * exp (INR k)))
             (attempt_counts fails w) /\
     reconnect_attempts (ws_manager w') = 0%nat) /\
  snd (connect (repeat ConnectRaises 710) w) = inl OverflowError.
Proof.
  intros H0. split; [|split].
  - intros n Hn. destruct (connect_slept n w H0 Hn) as [Hs [w' Hw']].
    split; [now rewrite attempt_counts_connect_raises, H0|].
    split; [|split].
    + intros k Hk. rewrite Hs, list_lookup_fmap.
      rewrite (lookup_seq_lt 0 n k Hk). reflexivity.
    + now rewrite Hs, length_map, length_seq.
    + exists w'. split; [exact Hw'|]. apply (connect_loop_resets _ _ _ _ Hw').
  - intros fails w' Hr. split; [|apply (connect_loop_resets _ _ _ _ Hr)].
    pose proof (connect_loop_by_count fails w w') as H.
    rewrite H0, next_delay_0 in H. exact (H Hr).
  - unfold connect. apply (connect_loop_overflows 709). now rewrite H0.
Qed.

(** After 710 failures in a row the process is gone. *)
Example connect_gives_up :
  snd (connect (repeat ConnectRaises 710) (boot empty_db)) = inl OverflowError.
Proof. apply (connect_loop_overflows 709). reflexivity. Qed.

Lemma exp_INR_mult (n : nat) (x : R) : exp (INR n * x) = (exp x ^ n)%R.
Proof.
  induction n as [|n IH].
  - simpl. rewrite Rmult_0_l. apply exp_0.
  - rewrite S_INR, Rmult_plus_distr_r, Rmult_1_l, exp_plus, IH. simpl. apply Rmult_comm.
Qed.

Lemma exp_5_lower : (60 <= exp 5)%R.
Proof.
  replace 5%R with (INR 20 * (1 / 4))%R by (simpl; lra).
  rewrite exp_INR_mult.
  assert (H : (5 / 4 < exp (1 / 4))%R).
  { pose proof (exp_ineq1 (1 / 4)) as H. lra. }
  apply Rle_trans with ((5 / 4) ^ 20)%R; [simpl; lra|].
  apply pow_incr. lra.
Qed.

Lemma exp_4_upper : (exp 4 < 60)%R.
Proof.
  replace 4%R with (INR 128 * (1 / 32))%R by (simpl; lra).
  rewrite exp_INR_mult.
  assert (H : (exp (1 / 32) <= 32 / 31)%R).
  { pose proof (exp_ineq1 (- (1 / 32))) as H. rewrite exp_Ropp in H.
    pose proof (exp_pos (1 / 32)) as Hp.
    assert (H1 : (31 / 32 < / exp (1 / 32))%R) by lra.
    apply Rmult_lt_compat_r with (r := exp (1 / 32)) in H1; [|exact Hp].
    rewrite Rinv_l in H1 by lra. lra. }
  apply Rle_lt_trans with ((32 / 31) ^ 128)%R.
  - apply pow_incr. split; [left; apply exp_pos | exact H].
  - simpl; lra.
Qed.

(** The schedule at the configured delays: the first wait is the initial
    delay, the second [e], the fifth [e^4], still under the cap, and from the
    sixth on the cap. *)
Lemma next_delay_values :
  next_delay 0 = 1%R /\ next_delay 1 = exp 1 /\ next_delay 4 = exp 4 /\
  (next_delay 4 < 60)%R /\ forall k, (5 <= k)%nat -> next_delay k = 60%R.
Proof.
  unfold next_delay, Config.INITIAL_RECONNECT_DELAY, Config.MAX_RECONNECT_DELAY.
  pose proof exp_le_3 as H3. pose proof exp_4_upper as H4. pose proof exp_5_lower as H5.
  assert (E1 : INR 1 = 1%R) by reflexivity.
  assert (E4 : INR 4 = 4%R) by (simpl; lra).
  rewrite E1, E4. simpl (INR 0). rewrite exp_0.
  repeat split.
  - rewrite Rmin_right; lra.
  - rewrite Rmin_right; lra.
  - rewrite Rmin_right; lra.
  - rewrite Rmin_right; lra.
  - intros k Hk. rewrite Rmin_left; [reflexivity|].
    assert (Hle : (exp 5 <= exp (INR k))%R).
    { apply le_INR in Hk. replace (INR 5) with 5%R in Hk by (simpl; lra).
      destruct Hk as [Hlt | <-]; [left; now apply exp_increasing | right; reflexivity]. }
    lra.
Qed.

(** The first attempt succeeds: [main] enters its loop in [started]. *)
Lemma start_first_attempt (file : Database) : start [] file = inr (started file).
Proof. reflexivity. Qed.

(** X16.  On the first connection of a run the subscribed set is empty, and the
    first pass of the handler sends a command for every mint of the table. *)
Lemma first_connection_replays (file : Database) (mint : string) :
  mint ∈ select_mints file ->
  (1%nat, SubscribeTokenTrade [mint]) ∈ wire (subscription_handler true (started file)).
Proof.
  intros Hin. unfold started.
  pose proof (connect_returns (boot file)) as H. cbv zeta in H.
  set (w1 := start_handler (initial_subscriptions (connected (boot file)))) in *.
  destruct H as (Hc & _ & Ha & Hp & _).
  rewrite (subscription_handler_wire true 1 w1 Hc).
  apply elem_of_app. right. apply (list_elem_of_fmap_2 (fun m => (1%nat, SubscribeTokenTrade [m]))).
  apply handler_sent_up. rewrite Hp, Ha. split; [exact Hin | set_solver].
Qed.

(** After a reconnection the subscribed set is the one of the connection
    before: a pass of the handler sends nothing for a mint that was
    subscribed then. *)
Lemma reconnect_keeps_subscribed (fails : list failure) (w w' : World) :
  snd (connect fails w) = inr w' ->
  active_tokens (ws_manager w') = active_tokens (ws_manager w).
Proof.
  unfold connect. generalize Config.INITIAL_RECONNECT_DELAY as delay.
  revert w. induction fails as [|f rest IH]; intros w delay.
  - cbn [connect_loop snd]. intros [= <-]. apply (connect_returns w).
  - cbn [connect_loop]. destruct (math_exp_raises _); [discriminate|].
    set (w1 := count_attempt (failed_attempt f w)).
    specialize (IH w1 (next_delay (reconnect_attempts (ws_manager w1)))).
    destruct (connect_loop rest _ w1) as [slept r]. cbn [snd] in *.
    intros Hr. rewrite (IH Hr).
    unfold w1, count_attempt, set_manager. cbn [ws_manager active_tokens].
    destruct f; cbn [failed_attempt]; [reflexivity | reflexivity |].
    unfold subscribe_new_token. now rewrite send_manager.
Qed.

(** X17.  A mint that is subscribed when the connection is lost gets no command on
    the connections opened after: [connect] enqueues it again and the pass
    of the handler skips it. *)
Lemma reconnect_skips_subscribed (fails : list failure) (w w' : World) (mint : string) :
  snd (connect fails w) = inr w' ->
  mint ∈ active_tokens (ws_manager w) ->
  mint ∉ handler_sent true (ws_manager w').
Proof.
  intros Hr Hin Hsent. apply handler_sent_up in Hsent as [_ Hout].
  now rewrite (reconnect_keeps_subscribed _ _ _ Hr) in Hout.
Qed.

(** ** More on the subscription handler *)

(** X14.  A pass whose sends go through leaves the queue empty and every mint that
    was on it subscribed; the commands go out on the current connection, one
    per mint newly subscribed; the tables and the counters are not touched;
    and a second pass right after has nothing to send. *)
Theorem handler_pass_subscribes (w : World) (k : nat) :
  conn (ws_manager w) = Some k ->
  let w' := subscription_handler true w in
  pending_subscriptions (ws_manager w') = [] /\
  active_tokens (ws_manager w') =
    active_tokens (ws_manager w) ∪ list_to_set (pending_subscriptions (ws_manager w)) /\
  wire w' = wire w ++ map (fun mint => (k, SubscribeTokenTrade [mint]))
                          (handler_sent true (ws_manager w)) /\
  db w' = db w /\ stats w' = stats w /\
  handler_sent true (ws_manager w') = [].
Proof.
  intros Hc w'. pose proof (subscription_handler_wire true k w Hc) as Hw.
  unfold w'. unfold subscription_handler, handler_sent in *.
  destruct (drain_up (pending_subscriptions (ws_manager w)) (active_tokens (ws_manager w)))
    as (sent & Hd & _). rewrite Hd in *. cbn [fst snd] in *.
  destruct (send_all_wire k sent w Hc) as (_ & _ & Hdb & Hst & _).
  cbn in *. repeat split; auto.
Qed.

(** X15.  When [send] raises, the mint it was for is lost to this connection: it
    is off the queue and not in the subscribed set.  The subscribed mints
    queued before it are dropped without a send, what was queued after it
    stays, and nothing goes out. *)
Theorem failed_send_drops_mint
        (w : World) (before rest : list string) (mint : string) :
  pending_subscriptions (ws_manager w) = before ++ mint :: rest ->
  (forall x, x ∈ before -> x ∈ active_tokens (ws_manager w)) ->
  mint ∉ active_tokens (ws_manager w) ->
  let w' := subscription_handler false w in
  pending_subscriptions (ws_manager w') = rest /\
  active_tokens (ws_manager w') = active_tokens (ws_manager w) /\
  wire w' = wire w.
Proof.
  intros Hq Hbefore Hmint w'. unfold w', subscription_handler. rewrite Hq.
  assert (Hd : drain false (before ++ mint :: rest) (active_tokens (ws_manager w))
               = (active_tokens (ws_manager w), rest, [])).
  { clear Hq. induction before as [|x before IH]; cbn [app drain].
    - now rewrite bool_decide_eq_false_2 by exact Hmint.
    - rewrite bool_decide_eq_true_2 by (apply Hbefore; left).
      apply IH. intros y Hy. apply Hbefore. now right. }
  rewrite Hd. cbn. repeat split.
Qed.

(** Both kinds of pass only move mints from the queue to the subscribed set
    or drop them. *)
Lemma drain_within (up : bool) (queue : list string) (active : gset string) :
  active ⊆ fst (fst (drain up queue active)) /\
  (forall x, x ∈ fst (fst (drain up queue active)) -> x ∈ active \/ x ∈ queue) /\
  (forall x, x ∈ snd (fst (drain up queue active)) -> x ∈ queue).
Proof.
  revert active. induction queue as [|mint rest IH]; intros active; cbn [drain].
  - cbn. split; [set_solver|]. split; [auto|]. intros x H. inversion H.
  - case_bool_decide as Hin.
    + destruct (IH active) as (H1 & H2 & H3). split; [exact H1|]. split.
      * intros x Hx. destruct (H2 x Hx); [now left | right; now right].
      * intros x Hx. right. now apply H3.
    + destruct up.
      * destruct (IH ({[mint]} ∪ active)) as (H1 & H2 & H3).
        destruct (drain true rest ({[mint]} ∪ active)) as [[a' rem] sent]. cbn in *.
        split; [set_solver|]. split.
        -- intros x Hx. destruct (H2 x Hx) as [Hu|Hr]; [|right; now right].
           apply elem_of_union in Hu as [Hs|Ha]; [|now left].
           apply elem_of_singleton in Hs as ->. right. now left.
        -- intros x Hx. right. now apply H3.
      * cbn. split; [set_solver|]. split; [now left|]. intros x Hx. now right.
Qed.

(** ** More on [connect] *)

Lemma failed_attempt_frame (f : failure) (w : World) :
  let w1 := count_attempt (failed_attempt f w) in
  pending_subscriptions (ws_manager w1) = pending_subscriptions (ws_manager w) /\
  handler_tasks w1 = handler_tasks w /\
  (connections w <= connections w1)%nat /\
  (forall c, conn (ws_manager w) = Some c -> (c <= connections w)%nat ->
     exists c1, conn (ws_manager w1) = Some c1 /\ (c1 <= connections w1)%nat).
Proof.
  destruct f; cbn.
  - repeat split; auto. intros c Hc Hle. eauto.
  - repeat split; auto. intros c Hc Hle. eauto.
  - unfold subscribe_new_token, send. cbn. repeat split; auto. intros c Hc Hle. eauto.
Qed.

Lemma connect_loop_effect (fails : list failure) (delay : R) (w w' : World) :
  snd (connect_loop fails delay w) = inr w' ->
  pending_subscriptions (ws_manager w') =
    pending_subscriptions (ws_manager w) ++ select_mints (db w) /\
  conn (ws_manager w') = Some (connections w') /\
  (connections w < connections w')%nat /\
  handler_tasks w' = S (handler_tasks w) /\
  last (wire w') = Some (connections w', SubscribeNewToken).
Proof.
  revert delay w. induction fails as [|f rest IH]; intros delay w.
  - cbn [connect_loop snd]. intros [= <-].
    destruct (connect_returns w) as (Hc & _ & _ & Hp & Hw & _).
    cbv zeta in *. rewrite Hp, Hc, Hw. cbn. rewrite last_snoc. repeat split; auto.
  - cbn [connect_loop]. destruct (math_exp_raises _); [discriminate|].
    set (w1 := count_attempt (failed_attempt f w)).
    specialize (IH (next_delay (reconnect_attempts (ws_manager w1))) w1).
    destruct (connect_loop rest _ w1) as [slept r]. cbn [snd] in *.
    intros Hr. destruct (IH Hr) as (Hp & Hc & Hk & Hh & Hl).
    destruct (failed_attempt_frame f w) as (Fp & Fh & Fk & _). fold w1 in Fp, Fh, Fk.
    assert (Hdb : db w1 = db w) by (unfold w1; now destruct f).
    rewrite Hp, Fp, Hdb, Hh, Fh. repeat split; auto. lia.
Qed.

Lemma connect_loop_store (fails : list failure) (delay : R) (w w' : World) :
  snd (connect_loop fails delay w) = inr w' -> db w' = db w /\ stats w' = stats w.
Proof.
  revert delay w. induction fails as [|f rest IH]; intros delay w.
  - cbn [connect_loop snd]. intros [= <-].
    destruct (connect_returns w) as (_ & _ & _ & _ & _ & Hd & Hs). now split.
  - cbn [connect_loop]. destruct (math_exp_raises _); [discriminate|].
    set (w1 := count_attempt (failed_attempt f w)).
    specialize (IH (next_delay (reconnect_attempts (ws_manager w1))) w1).
    destruct (connect_loop rest _ w1) as [slept r]. cbn [snd] in *.
    intros Hr. destruct (IH Hr) as [-> ->]. unfold w1. now destruct f.
Qed.

(** X18.  Whatever failed on the way, when [connect] returns: the current
    connection is the one opened last; one more handler task runs; the
    tables and the counters are as they were; and the attempt counter is
    zero.  When no handler task was running at the call, as at the call
    [main] makes before its loop, nothing else ran in between and moreover:
    the last command on the wire is the subscription to the creation stream,
    on that connection; the queue has gained the mints of the table, once,
    after what was pending; and the subscribed set is as it was. *)
Theorem connect_effect (fails : list failure) (w w' : World) :
  snd (connect fails w) = inr w' ->
  (conn (ws_manager w') = Some (connections w') /\
   (connections w < connections w')%nat /\
   handler_tasks w' = S (handler_tasks w) /\
   db w' = db w /\ stats w' = stats w /\
   reconnect_attempts (ws_manager w') = 0%nat) /\
  (handler_tasks w = 0%nat ->
   handler_tasks w' = 1%nat /\
   last (wire w') = Some (connections w', SubscribeNewToken) /\
   pending_subscriptions (ws_manager w') =
     pending_subscriptions (ws_manager w) ++ select_mints (db w) /\
   active_tokens (ws_manager w') = active_tokens (ws_manager w)).
Proof.
  intros Hr.
  destruct (connect_loop_effect _ _ _ _ Hr) as (Hp & Hc & Hk & Hh & Hl).
  pose proof (reconnect_keeps_subscribed _ _ _ Hr) as Ha.
  pose proof (connect_loop_resets _ _ _ _ Hr) as H0.
  destruct (connect_loop_store _ _ _ _ Hr) as [Hdb Hst].
  split; [repeat split; auto|].
  intros Hnone. rewrite Hh, Hnone. repeat split; auto.
Qed.

Lemma connect_loop_overflows_then (n : nat) (rest : list failure) (delay : R) (w : World) :
  (reconnect_attempts (ws_manager w) + S n = 710)%nat ->
  snd (connect_loop (repeat ConnectRaises (S n) ++ rest) delay w) = inl OverflowError.
Proof.
  revert delay w. induction n as [|n IH]; intros delay w Hlt.
  - cbn [repeat app connect_loop failed_attempt]. rewrite count_attempt_counter.
    unfold math_exp_raises.
    destruct (Nat.leb_spec 710 (S (reconnect_attempts (ws_manager w)))); [reflexivity | lia].
  - change (repeat ConnectRaises (S (S n)) ++ rest)
      with (ConnectRaises :: (repeat ConnectRaises (S n) ++ rest)).
    cbn [connect_loop failed_attempt]. rewrite count_attempt_counter.
    unfold math_exp_raises.
    destruct (Nat.leb_spec 710 (S (reconnect_attempts (ws_manager w)))); [lia|].
    specialize (IH (next_delay (S (reconnect_attempts (ws_manager w)))) (count_attempt w)).
    rewrite count_attempt_counter in IH.
    destruct (connect_loop (repeat ConnectRaises (S n) ++ rest) _ _) as [slept r].
    apply IH. lia.
Qed.

(** X20.  [connect] does not retry for ever: when [websockets.connect] raises 710
    times in a row, [math.exp] raises [OverflowError] in the [except] clause
    and the exception leaves [connect], whatever would have followed; in the
    loop of [main], where [connect] is called from an [except] clause,
    nothing catches it and the process ends. *)
Theorem reconnect_overflow
        (float_of_str : string -> option spec_float) (w : World) (rest : list failure) :
  reconnect_attempts (ws_manager w) = 0%nat ->
  snd (connect (repeat ConnectRaises 710 ++ rest) w) = inl OverflowError /\
  step float_of_str w (ConnectionClosed (repeat ConnectRaises 710 ++ rest))
    = Crashed OverflowError.
Proof.
  intros H0.
  assert (H : snd (connect (repeat ConnectRaises 710 ++ rest) w) = inl OverflowError).
  { unfold connect. apply (connect_loop_overflows_then 709). rewrite H0. reflexivity. }
  split; [exact H|]. cbn [step]. now rewrite H.
Qed.

Lemma next_delay_bounds (n : nat) :
  (Config.INITIAL_RECONNECT_DELAY <= next_delay n <= Config.MAX_RECONNECT_DELAY)%R /\
  (next_delay n <= next_delay (S n))%R.
Proof.
  unfold next_delay, Config.INITIAL_RECONNECT_DELAY, Config.MAX_RECONNECT_DELAY.
  assert (H1 : (1 <= exp (INR n))%R).
  { destruct n as [|n]; [simpl; rewrite exp_0; lra|].
    left. rewrite <- exp_0. apply exp_increasing. apply lt_0_INR. lia. }
  assert (H2 : (exp (INR n) <= exp (INR (S n)))%R).
  { left. apply exp_increasing. rewrite S_INR. lra. }
  split; [split|].
  - apply Rmin_glb; lra.
  - apply Rmin_l.
  - apply Rle_min_compat_l. lra.
Qed.

(** X19.  The backoff is bounded and never shrinks: whatever fails and however
    often, every delay [connect] sleeps lies between the initial delay and
    the maximum; and while [websockets.connect] keeps raising, each delay is
    at least the one before. *)
Theorem connect_sleeps_within_bounds (fails : list failure) (w : World) :
  Forall (fun d => (Config.INITIAL_RECONNECT_DELAY <= d <= Config.MAX_RECONNECT_DELAY)%R)
         (fst (connect fails w)) /\
  forall n, (n < 710)%nat -> reconnect_attempts (ws_manager w) = 0%nat ->
    forall i d1 d2,
      fst (connect (repeat ConnectRaises n) w) !! i = Some d1 ->
      fst (connect (repeat ConnectRaises n) w) !! S i = Some d2 ->
      (d1 <= d2)%R.
Proof.
  split.
  - unfold connect.
    assert (G : forall fails delay w,
               (Config.INITIAL_RECONNECT_DELAY <= delay <= Config.MAX_RECONNECT_DELAY)%R ->
               Forall (fun d => (Config.INITIAL_RECONNECT_DELAY <= d
                                 <= Config.MAX_RECONNECT_DELAY)%R)
                      (fst (connect_loop fails delay w))).
    { clear. induction fails as [|f rest IH]; intros delay w Hd; cbn [connect_loop].
      - constructor.
      - destruct (math_exp_raises _); [cbn; constructor; [exact Hd | constructor]|].
        match goal with |- context [connect_loop rest ?d ?w1] =>
          specialize (IH d w1 (proj1 (next_delay_bounds _)));
          destruct (connect_loop rest d w1) as [slept r] end.
        cbn in *. constructor; [exact Hd | exact IH]. }
    apply G. unfold Config.INITIAL_RECONNECT_DELAY, Config.MAX_RECONNECT_DELAY. lra.
  - intros n Hn H0 i d1 d2. destruct (connect_slept n w H0 Hn) as [-> _].
    rewrite !list_lookup_fmap. intros H1 H2.
    destruct (seq 0 n !! i) as [a|] eqn:Ha; [|discriminate].
    destruct (seq 0 n !! S i) as [b|] eqn:Hb; [|discriminate].
    apply lookup_seq in Ha as [-> _]. apply lookup_seq in Hb as [-> _].
    cbn in H1, H2. injection H1 as <-. injection H2 as <-.
    apply next_delay_bounds.
Qed.
(** ** The loop body *)

Section Loop.

Variable float_of_str : string -> option spec_float.

Lemma has_key_timestamp (d : gmap string pyval) (t : Z) (k : string) :
  k <> "timestamp"%string ->
  has_key (<["timestamp"%string := PInt t]> d) k = has_key d k.
Proof. intros Hk. unfold has_key. now rewrite lookup_insert_ne by congruence. Qed.

Lemma dict_get_timestamp (d : gmap string pyval) (t : Z) (k : string) (v : pyval) :
  k <> "timestamp"%string ->
  dict_get (<["timestamp"%string := PInt t]> d) k v = dict_get d k v.
Proof. intros Hk. unfold dict_get. now rewrite lookup_insert_ne by congruence. Qed.

(** C7.  A decoded object that lacks [mint] or [txType] takes the
    [continue]: the pass ends with the state as it was, nothing written and
    no counter moved, and the loop goes on. *)
Theorem missing_field_skipped (w : World) (t : Z) (d : gmap string pyval) :
  d !! "mint"%string = None \/ d !! "txType"%string = None ->
  process_message float_of_str w t (PDict d) = Next w Skipped.
Proof.
  intros H. unfold process_message.
  rewrite !has_key_timestamp by discriminate. unfold has_key.
  destruct H as [-> | ->]; [reflexivity|].
  now destruct (d !! "mint"%string).
Qed.

(** A decoded value that is no object has no fields at all: the store of the
    timestamp raises, and the pass ends with the state as it was. *)
Lemma non_object_dropped (w : World) (t : Z) (v : pyval) :
  (forall d, v <> PDict d) -> process_message float_of_str w t v = Next w (Failed TypeError).
Proof. intros H. destruct v; try reflexivity. now destruct (H d). Qed.

Lemma extract_fields_fails (data : gmap string pyval) (k : string) (e : exn) :
  k ∈ numeric_fields -> get_float float_of_str data k = inl e ->
  exists e', extract_fields float_of_str data = inl e'.
Proof.
  intros Hk He. unfold extract_fields.
  repeat match goal with
         | |- context [match get_float float_of_str data ?k' with _ => _ end] =>
             destruct (get_float float_of_str data k') eqn:?; [eexists; reflexivity|]
         end.
  unfold numeric_fields in Hk.
  repeat (apply elem_of_cons in Hk; destruct Hk as [-> | Hk]; [congruence|]).
  inversion Hk.
Qed.

(** The six fields read through [float] default to [0.0] when the key is
    absent or holds [null]. *)
Lemma get_float_default (data : gmap string pyval) (k : string) :
  data !! k = None \/ data !! k = Some PNone ->
  get_float float_of_str data k = inr float_zero.
Proof. unfold get_float, dict_get. now intros [-> | ->]. Qed.

(** [initialBuy] is bound as [data.get('initialBuy', 0)] gives it: a [null]
    goes to the statement as [NULL]. *)
Lemma token_params_null_liquidity (m : string) (data : gmap string pyval) (row : token_row) :
  data !! "initialBuy"%string = Some PNone ->
  token_params m data = inr row ->
  tk_initial_sol_liquidity row = SNull.
Proof.
  intros Hib. unfold token_params, dict_get at 2. rewrite Hib. cbn [bind].
  repeat match goal with
         | |- context [match bind ?v with _ => _ end] => destruct (bind v); [discriminate|]
         end.
  now intros [= <-].
Qed.

(** C10 (as amended).  When one of the six fields the body passes through
    [float] holds a value that is true for [or] and that [float] rejects,
    the pass ends before the database is opened: the state is as it was,
    with no row in either table, and the loop goes on.  (A value that is
    false for [or], such as an empty list or an empty string, is replaced by
    [0] before [float] sees it.) *)
Theorem uncoercible_field_drops_message
        (w : World) (t : Z) (d : gmap string pyval) (k : string) (x : pyval) (e : exn) :
  k ∈ numeric_fields ->
  d !! k = Some x ->
  truthy x = true ->
  py_float float_of_str x = inl e ->
  process_message float_of_str w t (PDict d) = Next w Skipped \/
  exists e', process_message float_of_str w t (PDict d) = Next w (Failed e').
Proof.
  intros Hk Hx Ht He. unfold process_message.
  destruct (negb _); [now left | right].
  assert (Hts : k <> "timestamp"%string).
  { unfold numeric_fields in Hk.
    repeat (apply elem_of_cons in Hk; destruct Hk as [-> | Hk]; [discriminate|]).
    inversion Hk. }
  assert (Hg : get_float float_of_str (<["timestamp"%string := PInt t]> d) k = inl e).
  { unfold get_float. rewrite dict_get_timestamp by exact Hts.
    unfold dict_get. rewrite Hx. unfold py_or. now rewrite Ht. }
  destruct (extract_fields_fails _ k e Hk Hg) as [e' ->]. now exists e'.
Qed.

Lemma andb_split (a b : bool) : a && b = true -> a = true /\ b = true.
Proof. now destruct a, b. Qed.

Lemma is_ok_inr {A : Type} (r : exn + A) : is_ok r = true -> exists a, r = inr a.
Proof. destruct r; [discriminate | eauto]. Qed.

Lemma extract_fields_ok (data : gmap string pyval) :
  floats_ok float_of_str data = true ->
  exists f, extract_fields float_of_str data = inr f /\
            tx_type f = dict_get data "txType" PNone /\
            trader_pubkey f = dict_get data "traderPublicKey" PNone /\
            bonding_curve_key f = dict_get data "bondingCurveKey" PNone.
Proof.
  unfold floats_ok, numeric_fields. cbn [forallb]. intros H.
  repeat (apply andb_split in H; destruct H as [?H H]).
  repeat match goal with
         | Hk : is_ok (get_float float_of_str data ?k) = true |- _ =>
             apply is_ok_inr in Hk; destruct Hk as [? Hk]
         end.
  unfold extract_fields.
  repeat match goal with Hk : get_float float_of_str data _ = inr _ |- _ => rewrite Hk; clear Hk end.
  eexists; repeat split.
Qed.

(** What a creation message does, whether or not its mint is known: the
    insert-or-ignore into [tokens], the mint on the queue, the creation
    counter, and one more row in [raw_txs]. *)
Lemma creation_step (w : World) (t : Z) (d : gmap string pyval) (m : string) :
  d !! "mint"%string = Some (PStr m) ->
  d !! "txType"%string = Some (PStr "create") ->
  creation_ok float_of_str t d = true ->
  exists (w' : World) (row : token_row) (raw : raw_tx),
    process_message float_of_str w t (PDict d) = Next w' Stored /\
    tokens (db w') = tokens (fst (insert_or_ignore_token row (db w))) /\
    raw_txs (db w') = raw_txs (db w) ++ [raw] /\
    tk_mint row = m /\
    tk_timestamp row = SInteger t /\
    bind (dict_get d "initialBuy" (PInt 0)) = inr (tk_initial_sol_liquidity row) /\
    bind (dict_get d "name" (PStr "")) = inr (tk_name row) /\
    bind (dict_get d "symbol" (PStr "")) = inr (tk_symbol row) /\
    tx_mint raw = m /\
    tx_tx_type raw = SText "create" /\
    tx_timestamp raw = SInteger t /\
    ws_manager w' = subscribe_token m (ws_manager w) /\
    token_creations (stats w') = S (token_creations (stats w)) /\
    processed_txs (stats w') = processed_txs (stats w) /\
    wire w' = wire w.
Proof.
  intros Hm Hty Hok. unfold creation_ok in Hok. cbv zeta in Hok.
  set (data := <["timestamp"%string := PInt t]> d) in *.
  apply andb_split in Hok as [Hok Hbk]. apply andb_split in Hok as [Hok Htp].
  apply andb_split in Hok as [Hok Hsy]. apply andb_split in Hok as [Hok Hnm].
  apply andb_split in Hok as [Hok Hib]. apply andb_split in Hok as [Hok Hts].
  destruct (extract_fields_ok data Hok) as (f & Hf & Hfty & Hftp & Hfbk).
  assert (Dty : dict_get data "txType" PNone = PStr "create").
  { unfold data. rewrite dict_get_timestamp by discriminate. unfold dict_get. now rewrite Hty. }
  assert (Dts : dict_get data "timestamp" PNone = PInt t).
  { unfold data, dict_get. now rewrite lookup_insert_eq. }
  assert (Dm : mint_key data = Some m).
  { unfold mint_key, data. rewrite lookup_insert_ne by discriminate. now rewrite Hm. }
  rewrite Dts in Hts.
  assert (Bts : bind (PInt t) = inr (SInteger t)).
  { simpl in *. now destruct (_ && _). }
  clear Hts.
  apply is_ok_inr in Hbk as [bk Hbk]. apply is_ok_inr in Htp as [tp Htp].
  apply is_ok_inr in Hsy as [sy Hsy]. apply is_ok_inr in Hnm as [nm Hnm].
  apply is_ok_inr in Hib as [ib Hib].
  assert (Km : has_key data "mint" = true).
  { unfold data. rewrite has_key_timestamp by discriminate. unfold has_key. now rewrite Hm. }
  assert (Kty : has_key data "txType" = true).
  { unfold data. rewrite has_key_timestamp by discriminate. unfold has_key. now rewrite Hty. }
  unfold process_message. fold data. rewrite Km, Kty.
  cbn [andb negb]. rewrite Hf. unfold route. rewrite Hfty, Dty, Dm.
  cbn [str_eq String.eqb Ascii.eqb Bool.eqb orb andb].
  unfold on_create, token_params. rewrite Dts, Bts, Hib, Hnm, Hsy.
  unfold on_record, raw_params. rewrite Dts, Bts, Hftp, Htp, Hfbk, Hbk, Hfty, Dty.
  cbn [bind insert_raw_tx aiosqlite_connect foreign_keys andb
       str_eq String.eqb Ascii.eqb Bool.eqb orb].
  unfold data in Hib, Hnm, Hsy. rewrite dict_get_timestamp in Hib, Hnm, Hsy by discriminate.
  do 3 eexists. split; [reflexivity|]. cbn.
  rewrite insert_or_ignore_raw_txs, Hib, Hnm, Hsy.
  repeat split; reflexivity.
Qed.

(** C4.  A creation message the body can store, for a mint that is not in
    [tokens]: the pass runs to its end; [tokens] gains one row, the only one
    for the mint, with the mint, the receipt time, and the name and symbol of
    the message; then [raw_txs] gains one row with that mint and type
    [create]; the mint is put on the subscription queue; the creation counter
    goes up by one and the transaction counter stays. *)
Theorem creation_of_new_mint (w : World) (t : Z) (d : gmap string pyval) (m : string) :
  d !! "mint"%string = Some (PStr m) ->
  d !! "txType"%string = Some (PStr "create") ->
  creation_ok float_of_str t d = true ->
  has_token m (db w) = false ->
  exists (w' : World) (row : token_row) (raw : raw_tx),
    process_message float_of_str w t (PDict d) = Next w' Stored /\
    tokens (db w') = tokens (db w) ++ [row] /\
    token_rows m (db w') = [row] /\
    tk_mint row = m /\
    tk_timestamp row = SInteger t /\
    bind (dict_get d "name" (PStr "")) = inr (tk_name row) /\
    bind (dict_get d "symbol" (PStr "")) = inr (tk_symbol row) /\
    raw_txs (db w') = raw_txs (db w) ++ [raw] /\
    tx_mint raw = m /\
    tx_tx_type raw = SText "create" /\
    pending_subscriptions (ws_manager w') = pending_subscriptions (ws_manager w) ++ [m] /\
    token_creations (stats w') = S (token_creations (stats w)) /\
    processed_txs (stats w') = processed_txs (stats w).
Proof.
  intros Hm Hty Hok Hfresh.
  destruct (creation_step w t d m Hm Hty Hok)
    as (w' & row & raw & Hp & Htk & Hraw & Hrm & Hrt & _ & Hnm & Hsy & Hxm & Hxt
        & _ & Hmgr & Hc & Hpt & _).
  rewrite insert_or_ignore_fresh in Htk by (rewrite Hrm; exact Hfresh). simpl in Htk.
  exists w', row, raw. repeat split; try assumption.
  - unfold token_rows. rewrite Htk, filter_app.
    fold (token_rows m (db w)). rewrite token_rows_fresh by exact Hfresh.
    simpl. rewrite filter_cons. now destruct (decide (tk_mint row = m)).
  - now rewrite Hmgr.
Qed.

(** C9.  Two creation messages for one mint, one after the other: both
    passes run to their end; the second leaves [tokens] as the first left
    it, and each appends its own row of type [create] to [raw_txs]. *)
Theorem duplicate_creation
        (w : World) (t1 t2 : Z) (d1 d2 : gmap string pyval) (m : string) :
  d1 !! "mint"%string = Some (PStr m) ->
  d1 !! "txType"%string = Some (PStr "create") ->
  creation_ok float_of_str t1 d1 = true ->
  d2 !! "mint"%string = Some (PStr m) ->
  d2 !! "txType"%string = Some (PStr "create") ->
  creation_ok float_of_str t2 d2 = true ->
  exists (w1 w2 : World) (raw1 raw2 : raw_tx),
    process_message float_of_str w t1 (PDict d1) = Next w1 Stored /\
    process_message float_of_str w1 t2 (PDict d2) = Next w2 Stored /\
    tokens (db w2) = tokens (db w1) /\
    raw_txs (db w2) = raw_txs (db w) ++ [raw1; raw2] /\
    tx_mint raw1 = m /\ tx_tx_type raw1 = SText "create" /\
    tx_mint raw2 = m /\ tx_tx_type raw2 = SText "create" /\
    tx_timestamp raw2 = SInteger t2.
Proof.
  intros Hm1 Hty1 Hok1 Hm2 Hty2 Hok2.
  destruct (creation_step w t1 d1 m Hm1 Hty1 Hok1)
    as (w1 & row1 & raw1 & Hp1 & Htk1 & Hraw1 & Hrm1 & _ & _ & _ & _ & Hxm1 & Hxt1 & _).
  destruct (creation_step w1 t2 d2 m Hm2 Hty2 Hok2)
    as (w2 & row2 & raw2 & Hp2 & Htk2 & Hraw2 & Hrm2 & _ & _ & _ & _ & Hxm2 & Hxt2 & Hts2 & _).
  assert (Hknown : has_token (tk_mint row2) (db w1) = true).
  { rewrite Hrm2, <- Hrm1. unfold has_token. rewrite Htk1. apply has_token_insert. }
  rewrite (insert_or_ignore_taken _ _ Hknown) in Htk2. simpl in Htk2.
  exists w1, w2, raw1, raw2. repeat split; try assumption.
  rewrite Hraw2, Hraw1, <- app_assoc. reflexivity.
Qed.

(** *** Invariants of the store along a run *)

(** A pass of the body only appends: at most one row to [tokens], by the
    insert-or-ignore, and at most one to [raw_txs]. *)
Lemma process_message_appends (w w' : World) (t : Z) (v : pyval) (n : note) :
  process_message float_of_str w t v = Next w' n ->
  (tokens (db w') = tokens (db w) \/
   exists row, tokens (db w') = tokens (db w) ++ [row] /\
               has_token (tk_mint row) (db w) = false) /\
  (raw_txs (db w') = raw_txs (db w) \/
   exists raw, raw_txs (db w') = raw_txs (db w) ++ [raw]).
Proof.
  unfold process_message. destruct v; try (intros [= <- _]; now auto).
  destruct (negb _); [intros [= <- _]; now auto|].
  destruct (extract_fields _ _) as [e|f]; [intros [= <- _]; now auto|].
  unfold route. destruct (_ || _); [|intros [= <- _]; now auto].
  destruct (mint_key _) as [m|]; [|discriminate].
  assert (Hrec : forall w1 w2 o,
             on_record aiosqlite_connect m (<["timestamp"%string := PInt t]> d) f w1 = (w2, o) ->
             tokens (db w2) = tokens (db w1) /\
             (raw_txs (db w2) = raw_txs (db w1) \/
              exists raw, raw_txs (db w2) = raw_txs (db w1) ++ [raw])).
  { intros w1 w2 o. unfold on_record.
    destruct (raw_params _ _ _) as [e|raw]; [intros [= <- _]; now auto|].
    rewrite insert_raw_tx_unenforced by reflexivity.
    destruct (_ || _); intros [= <- _]; cbn; eauto. }
  destruct (str_eq (tx_type f) "create").
  - unfold on_create. destruct (token_params _ _) as [e|row]; [intros [= <- _]; now auto|].
    match goal with |- context [on_record ?c ?m ?d ?f ?w1] =>
      destruct (on_record c m d f w1) as [w2 o] eqn:Hr; apply Hrec in Hr as [Htk Hrx] end.
    cbn in Htk, Hrx. rewrite insert_or_ignore_raw_txs in Hrx.
    intros Hn. assert (w2 = w') as -> by (now destruct o; inversion Hn). clear Hn.
    split; [|exact Hrx]. rewrite Htk. unfold insert_or_ignore_token.
    destruct (has_token (tk_mint row) (db w)) eqn:Hh; cbn; eauto.
  - destruct (on_record _ _ _ _ w) as [w2 o] eqn:Hr. apply Hrec in Hr as [Htk Hrx].
    intros Hn. assert (w2 = w') as -> by (now destruct o; inversion Hn).
    split; [now left | exact Hrx].
Qed.

Lemma connect_keeps_store (fails : list failure) (w w' : World) :
  snd (connect fails w) = inr w' -> db w' = db w /\ stats w' = stats w.
Proof.
  unfold connect. generalize Config.INITIAL_RECONNECT_DELAY as delay.
  revert w. induction fails as [|f rest IH]; intros w delay.
  - cbn [connect_loop snd]. intros [= <-].
    destruct (connect_returns w) as (_ & _ & _ & _ & _ & Hd & Hs). now split.
  - cbn [connect_loop]. destruct (math_exp_raises _); [discriminate|].
    set (w1 := count_attempt (failed_attempt f w)).
    specialize (IH w1 (next_delay (reconnect_attempts (ws_manager w1)))).
    destruct (connect_loop rest _ w1) as [slept r]. cbn [snd] in *.
    intros Hr. destruct (IH Hr) as [-> ->].
    unfold w1, count_attempt, set_manager. cbn [db stats].
    destruct f; cbn [failed_attempt connected subscribe_new_token send ws_manager conn db stats];
      now split.
Qed.

Lemma subscription_handler_keeps_store (up : bool) (w : World) :
  db (subscription_handler up w) = db w /\ stats (subscription_handler up w) = stats w.
Proof.
  unfold subscription_handler. destruct (drain up _ _) as [[a' rem] sent]. cbn.
  assert (H : forall l w0,
             db (fold_left (fun acc mint => send (SubscribeTokenTrade [mint]) acc) l w0) = db w0 /\
             stats (fold_left (fun acc mint => send (SubscribeTokenTrade [mint]) acc) l w0)
               = stats w0).
  { induction l as [|x l IH]; intros w0; cbn; [now split|].
    destruct (IH (send (SubscribeTokenTrade [x]) w0)) as [-> ->].
    unfold send. now destruct (conn (ws_manager w0)). }
  apply H.
Qed.

(** X1.  Rows are never changed or removed: along a run each table only grows at
    its end. *)
Lemma run_append_only (es : list event) (w w' : World) :
  run float_of_str es w = Running w' ->
  tokens (db w) `prefix_of` tokens (db w') /\ raw_txs (db w) `prefix_of` raw_txs (db w').
Proof.
  revert w. induction es as [|e es IH]; intros w; cbn [run].
  - intros [= <-]. split; reflexivity.
  - destruct (step float_of_str w e) as [w1| |] eqn:Hs; try discriminate.
    intros Hr. destruct (IH w1 Hr) as [Htk Hrx].
    assert (Hstep : tokens (db w) `prefix_of` tokens (db w1) /\
                    raw_txs (db w) `prefix_of` raw_txs (db w1)).
    { destruct e; cbn [step] in Hs.
      - destruct (snd (connect fails w)) as [x|w2] eqn:Hc; [discriminate|].
        injection Hs as <-. apply connect_keeps_store in Hc as [-> _]. split; reflexivity.
      - injection Hs as <-. split; reflexivity.
      - destruct (process_message _ _ _ _) as [w2 n|] eqn:Hp; [|discriminate].
        injection Hs as <-. apply process_message_appends in Hp as [Ht Hx].
        split.
        + destruct Ht as [-> | (row & -> & _)]; [reflexivity | now apply prefix_app_r].
        + destruct Hx as [-> | (raw & ->)]; [reflexivity | now apply prefix_app_r].
      - injection Hs as <-.
        destruct (subscription_handler_keeps_store up w) as [-> _]. split; reflexivity. }
    destruct Hstep as [Htk1 Hrx1]. split; etransitivity; eassumption.
Qed.

(** X2.  The mint stays a key of [tokens] along a run. *)
Lemma run_unique_mints (es : list event) (w w' : World) :
  NoDup (select_mints (db w)) ->
  run float_of_str es w = Running w' ->
  NoDup (select_mints (db w')).
Proof.
  revert w. induction es as [|e es IH]; intros w Hnd; cbn [run].
  - now intros [= <-].
  - destruct (step float_of_str w e) as [w1| |] eqn:Hs; try discriminate.
    apply IH. destruct e; cbn [step] in Hs.
    + destruct (snd (connect fails w)) as [x|w2] eqn:Hc; [discriminate|].
      injection Hs as <-. now apply connect_keeps_store in Hc as [-> _].
    + now injection Hs as <-.
    + destruct (process_message _ _ _ _) as [w2 n|] eqn:Hp; [|discriminate].
      injection Hs as <-. apply process_message_appends in Hp as [Ht _].
      unfold select_mints in *. destruct Ht as [-> | (row & -> & Hfresh)]; [exact Hnd|].
      apply has_token_false in Hfresh. unfold select_mints in Hfresh.
      rewrite map_app. apply NoDup_app. split; [exact Hnd|]. split; [|apply NoDup_singleton].
      intros x Hx Hx'. apply list_elem_of_singleton in Hx'. now subst.
    + injection Hs as <-. now destruct (subscription_handler_keeps_store up w) as [-> _].
Qed.

(** *** What a pass of the body can change *)

Lemma on_record_effect (m : string) (data : gmap string pyval) (f : fields) (w w2 : World)
      (o : option exn) :
  str_eq (tx_type f) "create" || str_eq (tx_type f) "buy" || str_eq (tx_type f) "sell" = true ->
  on_record aiosqlite_connect m data f w = (w2, o) ->
  ws_manager w2 = ws_manager w /\ wire w2 = wire w /\
  connections w2 = connections w /\ handler_tasks w2 = handler_tasks w /\
  tokens (db w2) = tokens (db w) /\
  token_creations (stats w2) = token_creations (stats w) /\
  ((raw_txs (db w2) = raw_txs (db w) /\ processed_txs (stats w2) = processed_txs (stats w)) \/
   exists raw, raw_txs (db w2) = raw_txs (db w) ++ [raw] /\
               processed_txs (stats w2) =
                 (processed_txs (stats w) + (if is_trade raw then 1 else 0))%nat).
Proof.
  intros Hkind. unfold on_record.
  destruct (raw_params m data f) as [e|raw] eqn:Hraw; [intros [= <- _]; tauto|].
  rewrite insert_raw_tx_unenforced by reflexivity.
  assert (Hty : is_trade raw = str_eq (tx_type f) "buy" || str_eq (tx_type f) "sell").
  { unfold raw_params in Hraw.
    destruct (bind (dict_get data "timestamp" PNone)); [discriminate|].
    destruct (bind (trader_pubkey f)); [discriminate|].
    destruct (bind (tx_type f)) as [|ty] eqn:Hb; [discriminate|].
    destruct (bind (bonding_curve_key f)); [discriminate|].
    injection Hraw as <-. unfold is_trade. cbn [tx_tx_type].
    destruct (tx_type f); cbn in Hkind; try discriminate.
    cbn in Hb. injection Hb as <-. reflexivity. }
  rewrite <- Hty.
  destruct (is_trade raw) eqn:E; intros [= <- _]; cbn;
    repeat split; right; exists raw; rewrite E; (split; [reflexivity | cbn; lia]).
Qed.

(** A pass of the body sends nothing and leaves the connection, the
    subscribed set and the attempt counter alone; it puts at most one mint on
    the queue, one that is then a row of [tokens]; and each counter moves
    with its table. *)
Lemma process_message_effect (w w' : World) (t : Z) (v : pyval) (n : note) :
  process_message float_of_str w t v = Next w' n ->
  wire w' = wire w /\ connections w' = connections w /\
  handler_tasks w' = handler_tasks w /\
  conn (ws_manager w') = conn (ws_manager w) /\
  active_tokens (ws_manager w') = active_tokens (ws_manager w) /\
  reconnect_attempts (ws_manager w') = reconnect_attempts (ws_manager w) /\
  ((tokens (db w') = tokens (db w) /\
    pending_subscriptions (ws_manager w') = pending_subscriptions (ws_manager w) /\
    token_creations (stats w') = token_creations (stats w)) \/
   exists row,
     tokens (db w') = tokens (fst (insert_or_ignore_token row (db w))) /\
     pending_subscriptions (ws_manager w') =
       pending_subscriptions (ws_manager w) ++ [tk_mint row] /\
     token_creations (stats w') = S (token_creations (stats w))) /\
  ((raw_txs (db w') = raw_txs (db w) /\ processed_txs (stats w') = processed_txs (stats w)) \/
   exists raw, raw_txs (db w') = raw_txs (db w) ++ [raw] /\
               processed_txs (stats w') =
                 (processed_txs (stats w) + (if is_trade raw then 1 else 0))%nat).
Proof.
  unfold process_message. destruct v; try (intros [= <- _]; tauto).
  destruct (negb _); [intros [= <- _]; tauto|].
  destruct (extract_fields _ _) as [e|f]; [intros [= <- _]; tauto|].
  unfold route. destruct (_ || _) eqn:Hkind; [|intros [= <- _]; tauto].
  destruct (mint_key _) as [m|]; [|discriminate].
  destruct (str_eq (tx_type f) "create") eqn:Hc.
  - unfold on_create. destruct (token_params _ _) as [e|row] eqn:Hrow; [intros [= <- _]; tauto|].
    assert (Hm : tk_mint row = m).
    { unfold token_params in Hrow.
      repeat match type of Hrow with
             | context [match bind ?x with _ => _ end] => destruct (bind x); [discriminate|]
             end.
      now injection Hrow as <-. }
    match goal with |- context [on_record ?c ?m ?d ?f ?w1] =>
      destruct (on_record c m d f w1) as [w2 o] eqn:Hr;
      apply on_record_effect in Hr as (H1 & H2 & H3 & H4 & H5 & H6 & H7);
        [|rewrite Hc; exact Hkind] end.
    cbn in H1, H2, H3, H4, H5, H6, H7. rewrite insert_or_ignore_raw_txs in H7.
    intros Hn. assert (w2 = w') as -> by (now destruct o; inversion Hn). clear Hn.
    rewrite H1, H2, H3, H4. cbn. repeat split.
    + right. exists row. rewrite Hm. auto.
    + exact H7.
  - destruct (on_record _ _ _ _ w) as [w2 o] eqn:Hr.
    apply on_record_effect in Hr as (H1 & H2 & H3 & H4 & H5 & H6 & H7);
      [|rewrite Hc; exact Hkind].
    intros Hn. assert (w2 = w') as -> by (now destruct o; inversion Hn). clear Hn.
    rewrite H1, H2, H3, H4. repeat split; auto.
Qed.

(** X6.  The receive loop never sends and never touches the connection, the
    subscribed set or the attempt counter: of the manager's state a pass of
    the body changes the queue alone, by at most one mint put at its end,
    and that mint is then a row of [tokens]. *)
Theorem body_only_enqueues (w w' : World) (t : Z) (v : pyval) (n : note) :
  process_message float_of_str w t v = Next w' n ->
  wire w' = wire w /\
  conn (ws_manager w') = conn (ws_manager w) /\
  active_tokens (ws_manager w') = active_tokens (ws_manager w) /\
  reconnect_attempts (ws_manager w') = reconnect_attempts (ws_manager w) /\
  connections w' = connections w /\ handler_tasks w' = handler_tasks w /\
  (pending_subscriptions (ws_manager w') = pending_subscriptions (ws_manager w) \/
   exists m, pending_subscriptions (ws_manager w') =
               pending_subscriptions (ws_manager w) ++ [m] /\
             has_token m (db w') = true).
Proof.
  intros Hp. apply process_message_effect in Hp
    as (H1 & H2 & H3 & H4 & H5 & H6 & Hc & _).
  repeat split; auto.
  destruct Hc as [(_ & Hq & _) | (row & Htk & Hq & _)]; [now left | right].
  exists (tk_mint row). split; [exact Hq|].
  unfold has_token. rewrite Htk. apply has_token_insert.
Qed.

(** *** Routing of the other kinds *)

(** X7.  A buy or a sell the body can store: one row is appended to [raw_txs],
    with the mint, the kind and the receipt time of the message, whether or
    not the mint is a row of [tokens]; the transaction counter goes up by
    one; [tokens], the creation counter, the manager and the wire stay. *)
Theorem trade_is_recorded (w : World) (t : Z) (d : gmap string pyval) (m kind : string) :
  d !! "mint"%string = Some (PStr m) ->
  d !! "txType"%string = Some (PStr kind) ->
  kind = "buy"%string \/ kind = "sell"%string ->
  trade_ok float_of_str t d = true ->
  exists (w' : World) (raw : raw_tx),
    process_message float_of_str w t (PDict d) = Next w' Stored /\
    raw_txs (db w') = raw_txs (db w) ++ [raw] /\
    tx_mint raw = m /\
    tx_tx_type raw = SText kind /\
    tx_timestamp raw = SInteger t /\
    bind (dict_get d "traderPublicKey" PNone) = inr (tx_traderPublicKey raw) /\
    tokens (db w') = tokens (db w) /\
    processed_txs (stats w') = S (processed_txs (stats w)) /\
    token_creations (stats w') = token_creations (stats w) /\
    ws_manager w' = ws_manager w /\
    wire w' = wire w.
Proof.
  intros Hm Hty Hkind Hok. unfold trade_ok in Hok. cbv zeta in Hok.
  set (data := <["timestamp"%string := PInt t]> d) in *.
  apply andb_split in Hok as [Hok Hbk]. apply andb_split in Hok as [Hok Htp].
  apply andb_split in Hok as [Hok Hts].
  destruct (extract_fields_ok data Hok) as (f & Hf & Hfty & Hftp & Hfbk).
  assert (Dty : dict_get data "txType" PNone = PStr kind).
  { unfold data. rewrite dict_get_timestamp by discriminate. unfold dict_get. now rewrite Hty. }
  assert (Dts : dict_get data "timestamp" PNone = PInt t).
  { unfold data, dict_get. now rewrite lookup_insert_eq. }
  assert (Dm : mint_key data = Some m).
  { unfold mint_key, data. rewrite lookup_insert_ne by discriminate. now rewrite Hm. }
  rewrite Dts in Hts.
  assert (Bts : bind (PInt t) = inr (SInteger t)).
  { simpl in *. now destruct (_ && _). }
  clear Hts.
  apply is_ok_inr in Hbk as [bk Hbk]. apply is_ok_inr in Htp as [tp Htp].
  assert (Km : has_key data "mint" = true).
  { unfold data. rewrite has_key_timestamp by discriminate. unfold has_key. now rewrite Hm. }
  assert (Kty : has_key data "txType" = true).
  { unfold data. rewrite has_key_timestamp by discriminate. unfold has_key. now rewrite Hty. }
  assert (Ek : str_eq (PStr kind) "create" = false /\
               str_eq (PStr kind) "buy" || str_eq (PStr kind) "sell" = true).
  { destruct Hkind as [-> | ->]; split; reflexivity. }
  destruct Ek as [Ec Et].
  unfold process_message. fold data. rewrite Km, Kty.
  cbn [andb negb]. rewrite Hf. unfold route. rewrite Hfty, Dty, Dm, Ec.
  cbn [orb]. rewrite Et.
  unfold on_record, raw_params. rewrite Dts, Bts, Hftp, Htp, Hfbk, Hbk, Hfty, Dty, Et.
  cbn [bind insert_raw_tx aiosqlite_connect foreign_keys andb].
  unfold data in Htp. rewrite dict_get_timestamp in Htp by discriminate.
  do 2 eexists. split; [reflexivity|]. cbn. rewrite Htp.
  repeat split; reflexivity.
Qed.

(** X8.  A message whose [txType] is none of [create], [buy] and [sell] passes the
    validation and the extraction and is then ignored: nothing is written,
    no counter moves, and no exception is raised, whatever its [mint]. *)
Theorem unknown_kind_ignored (w : World) (t : Z) (d : gmap string pyval) (vm ty : pyval) :
  d !! "mint"%string = Some vm ->
  d !! "txType"%string = Some ty ->
  floats_ok float_of_str (<["timestamp"%string := PInt t]> d) = true ->
  str_eq ty "create" || str_eq ty "buy" || str_eq ty "sell" = false ->
  process_message float_of_str w t (PDict d) = Next w Ignored.
Proof.
  intros Hm Hty Hok Hkind.
  destruct (extract_fields_ok _ Hok) as (f & Hf & Hfty & _).
  unfold process_message. rewrite !has_key_timestamp by discriminate.
  unfold has_key. rewrite Hm, Hty. cbn [andb negb]. rewrite Hf.
  unfold route. rewrite Hfty, dict_get_timestamp by discriminate.
  unfold dict_get. rewrite Hty. now rewrite Hkind.
Qed.

(** *** What the body does not look at *)

(** The receipt time replaces whatever [timestamp] the message came with. *)
Theorem upstream_timestamp_unused (w : World) (t : Z) (d : gmap string pyval) (v : pyval) :
  process_message float_of_str w t (PDict (<["timestamp"%string := v]> d))
    = process_message float_of_str w t (PDict d).
Proof. unfold process_message. now rewrite insert_insert_eq. Qed.

(** X11.  [signature], [pool] and [uri] reach neither table: a message with and
    without any of them is processed alike. *)
Theorem unused_fields_ignored
        (w : World) (t : Z) (d : gmap string pyval) (k : string) (v : pyval) :
  k ∈ unused_fields ->
  process_message float_of_str w t (PDict (<[k := v]> d))
    = process_message float_of_str w t (PDict d).
Proof.
  intros Hk. unfold unused_fields in Hk.
  repeat (apply elem_of_cons in Hk as [-> | Hk]); [| | | inversion Hk].
  all: unfold process_message, extract_fields, get_float, route, on_create, on_record,
         token_params, raw_params, mint_key, has_key, dict_get;
       cbn [tx_type trader_pubkey bonding_curve_key token_amount sol_amount
            new_token_balance v_tokens_bc v_sol_bc market_cap_sol];
       repeat (rewrite lookup_insert_eq || rewrite lookup_insert_ne by discriminate);
       destruct (negb _); [reflexivity|];
       repeat match goal with
              | |- context [match py_float float_of_str ?x with _ => _ end] =>
                  destruct (py_float float_of_str x); [reflexivity|]
              end;
       reflexivity.
Qed.

(** *** The two writes of a creation are not one transaction *)

Lemma token_params_ok (m : string) (t : Z) (d : gmap string pyval) :
  token_ok t d = true ->
  exists row, token_params m (<["timestamp"%string := PInt t]> d) = inr row /\ tk_mint row = m.
Proof.
  unfold token_ok, token_params. cbv zeta. intros H.
  apply andb_split in H as [H Hsy]. apply andb_split in H as [H Hnm].
  apply andb_split in H as [Hts Hib].
  apply is_ok_inr in Hts as [? ->]. apply is_ok_inr in Hib as [? ->].
  apply is_ok_inr in Hnm as [? ->]. apply is_ok_inr in Hsy as [? ->].
  eexists. split; reflexivity.
Qed.

Lemma token_params_refused (m : string) (t : Z) (d : gmap string pyval) :
  token_ok t d = false ->
  exists e, token_params m (<["timestamp"%string := PInt t]> d) = inl e.
Proof.
  unfold token_ok, token_params. cbv zeta.
  destruct (bind (dict_get _ "timestamp" _)); [eauto|].
  destruct (bind (dict_get _ "initialBuy" _)); [eauto|].
  destruct (bind (dict_get _ "name" _)); [eauto|].
  destruct (bind (dict_get _ "symbol" _)); [eauto|].
  discriminate.
Qed.

(** X12.  A creation message whose token parameters are accepted but whose
    [traderPublicKey] [sqlite3] refuses: the row of [tokens] is written and
    committed, the mint is enqueued and the creation counter goes up, and
    then the insert into [raw_txs] raises; the pass ends in the [except]
    clause with no row for the message in [raw_txs]. *)
Theorem creation_without_raw_row
        (w : World) (t : Z) (d : gmap string pyval) (m : string) (e : exn) :
  d !! "mint"%string = Some (PStr m) ->
  d !! "txType"%string = Some (PStr "create") ->
  floats_ok float_of_str (<["timestamp"%string := PInt t]> d) = true ->
  token_ok t d = true ->
  bind (dict_get d "traderPublicKey" PNone) = inl e ->
  exists (w' : World) (row : token_row),
    process_message float_of_str w t (PDict d) = Next w' (Failed e) /\
    tk_mint row = m /\
    tokens (db w') = tokens (fst (insert_or_ignore_token row (db w))) /\
    raw_txs (db w') = raw_txs (db w) /\
    pending_subscriptions (ws_manager w') = pending_subscriptions (ws_manager w) ++ [m] /\
    token_creations (stats w') = S (token_creations (stats w)) /\
    processed_txs (stats w') = processed_txs (stats w).
Proof.
  intros Hm Hty Hok Htok Htp.
  set (data := <["timestamp"%string := PInt t]> d) in *.
  destruct (extract_fields_ok data Hok) as (f & Hf & Hfty & Hftp & Hfbk).
  destruct (token_params_ok m t d Htok) as (row & Hrow & Hrm). fold data in Hrow.
  assert (Hts : exists ts, bind (dict_get data "timestamp" PNone) = inr ts).
  { unfold token_ok in Htok. cbv zeta in Htok. fold data in Htok.
    destruct (bind (dict_get data "timestamp" PNone)); [discriminate | eauto]. }
  destruct Hts as [ts Hts].
  assert (Dty : dict_get data "txType" PNone = PStr "create").
  { unfold data. rewrite dict_get_timestamp by discriminate. unfold dict_get. now rewrite Hty. }
  assert (Dtp : dict_get data "traderPublicKey" PNone = dict_get d "traderPublicKey" PNone).
  { unfold data. now rewrite dict_get_timestamp by discriminate. }
  assert (Dm : mint_key data = Some m).
  { unfold mint_key, data. rewrite lookup_insert_ne by discriminate. now rewrite Hm. }
  assert (Km : has_key data "mint" = true).
  { unfold data. rewrite has_key_timestamp by discriminate. unfold has_key. now rewrite Hm. }
  assert (Kty : has_key data "txType" = true).
  { unfold data. rewrite has_key_timestamp by discriminate. unfold has_key. now rewrite Hty. }
  unfold process_message. fold data. rewrite Km, Kty. cbn [andb negb]. rewrite Hf.
  unfold route. rewrite Hfty, Dty, Dm.
  cbn [str_eq String.eqb Ascii.eqb Bool.eqb orb andb].
  unfold on_create. rewrite Hrow. unfold on_record, raw_params.
  rewrite Hts, Hftp, Dtp, Htp.
  exists (count_creation
            (set_manager (subscribe_token m (ws_manager w))
                         (set_db (fst (insert_or_ignore_token row (db w))) w))), row.
  cbn. rewrite insert_or_ignore_raw_txs. repeat split; auto.
Qed.

(** X13.  A creation message with a token parameter that [sqlite3] refuses writes
    nothing at all: the pass ends in the [except] clause before the first
    statement is executed, with the state as it was. *)
Theorem creation_with_refused_token
        (w : World) (t : Z) (d : gmap string pyval) (m : string) :
  d !! "mint"%string = Some (PStr m) ->
  d !! "txType"%string = Some (PStr "create") ->
  floats_ok float_of_str (<["timestamp"%string := PInt t]> d) = true ->
  token_ok t d = false ->
  exists e, process_message float_of_str w t (PDict d) = Next w (Failed e).
Proof.
  intros Hm Hty Hok Htok.
  set (data := <["timestamp"%string := PInt t]> d) in *.
  destruct (extract_fields_ok data Hok) as (f & Hf & Hfty & _).
  destruct (token_params_refused m t d Htok) as (e & He). fold data in He.
  assert (Dty : dict_get data "txType" PNone = PStr "create").
  { unfold data. rewrite dict_get_timestamp by discriminate. unfold dict_get. now rewrite Hty. }
  assert (Dm : mint_key data = Some m).
  { unfold mint_key, data. rewrite lookup_insert_ne by discriminate. now rewrite Hm. }
  assert (Km : has_key data "mint" = true).
  { unfold data. rewrite has_key_timestamp by discriminate. unfold has_key. now rewrite Hm. }
  assert (Kty : has_key data "txType" = true).
  { unfold data. rewrite has_key_timestamp by discriminate. unfold has_key. now rewrite Hty. }
  exists e. unfold process_message. fold data. rewrite Km, Kty. cbn [andb negb]. rewrite Hf.
  unfold route. rewrite Hfty, Dty, Dm.
  cbn [str_eq String.eqb Ascii.eqb Bool.eqb orb andb].
  unfold on_create. now rewrite He.
Qed.

(** *** Defaults of the extraction *)

(** X10.  In a field read through [float(data.get(k, 0) or 0)] the values
    that [or 0] replaces by [0] are exactly these: no key (the default),
    [null], [false], the integer [0], the floats [0.0] and [-0.0], the empty
    string, the empty list and the empty object.  For them the field is
    [0.0], the empty list and the empty object included, which [float]
    itself refuses; every other value goes to [float] as it is. *)
Theorem falsy_field_reads_zero (data : gmap string pyval) (k : string) :
  match data !! k with
  | None => get_float float_of_str data k = inr float_zero
  | Some x =>
      (x = PNone \/ x = PBool false \/ x = PInt 0 \/
       x = PFloat (S754_zero false) \/ x = PFloat (S754_zero true) \/
       x = PStr EmptyString \/ x = PList [] \/ x = PDict ∅ ->
       get_float float_of_str data k = inr float_zero) /\
      (x <> PNone -> x <> PBool false -> x <> PInt 0 ->
       x <> PFloat (S754_zero false) -> x <> PFloat (S754_zero true) ->
       x <> PStr EmptyString -> x <> PList [] -> x <> PDict ∅ ->
       get_float float_of_str data k = py_float float_of_str x)
  end.
Proof.
  unfold get_float, dict_get, py_or.
  destruct (data !! k) as [x|]; [|reflexivity].
  split.
  - intros [-> | [-> | [-> | [-> | [-> | [-> | [-> | ->]]]]]]]; reflexivity.
  - intros H1 H2 H3 H4 H5 H6 H7 H8.
    assert (Ht : truthy x = true).
    { destruct x as [|b|z|f|s|l|d]; cbn [truthy].
      - now destruct H1.
      - destruct b; [reflexivity | now destruct H2].
      - destruct (Z.eqb_spec z 0) as [->|]; [now destruct H3 | reflexivity].
      - destruct f as [[|]| | |]; try reflexivity; [now destruct H5 | now destruct H4].
      - destruct s; [now destruct H6 | reflexivity].
      - destruct l; [now destruct H7 | reflexivity].
      - destruct (decide (d = ∅)) as [->|Hd]; [now destruct H8|].
        now rewrite bool_decide_eq_false_2. }
    now rewrite Ht.
Qed.

(** *** Invariants of a run *)

Lemma step_cases (w w1 : World) (e : event) :
  step float_of_str w e = Running w1 ->
  (exists fails, e = ConnectionClosed fails /\ snd (connect fails w) = inr w1) \/
  (e = InvalidJSON /\ w1 = w) \/
  (exists t v n, e = Message t v /\ process_message float_of_str w t v = Next w1 n) \/
  (exists up, e = HandlerPass up /\ w1 = subscription_handler up w).
Proof.
  destruct e; cbn [step].
  - destruct (snd (connect fails w)) as [x|w2] eqn:Hc; [discriminate|].
    intros [= <-]. left. eauto.
  - intros [= <-]. right. left. auto.
  - destruct (process_message _ _ _ _) as [w2 n|] eqn:Hp; [|discriminate].
    intros [= <-]. right. right. left. eauto.
  - intros [= <-]. right. right. right. eauto.
Qed.

Lemma subscription_handler_frame (up : bool) (w : World) :
  conn (ws_manager (subscription_handler up w)) = conn (ws_manager w) /\
  reconnect_attempts (ws_manager (subscription_handler up w))
    = reconnect_attempts (ws_manager w) /\
  connections (subscription_handler up w) = connections w /\
  handler_tasks (subscription_handler up w) = handler_tasks w.
Proof.
  unfold subscription_handler. destruct (drain up _ _) as [[a' rem] sent]. cbn.
  assert (H : forall l w0,
             connections (fold_left (fun acc mint => send (SubscribeTokenTrade [mint]) acc) l w0)
               = connections w0 /\
             handler_tasks (fold_left (fun acc mint => send (SubscribeTokenTrade [mint]) acc) l w0)
               = handler_tasks w0).
  { induction l as [|x l IH]; intros w0; cbn; [now split|].
    destruct (IH (send (SubscribeTokenTrade [x]) w0)) as [-> ->].
    unfold send. now destruct (conn (ws_manager w0)). }
  destruct (H sent w) as [-> ->]. auto.
Qed.

Lemma subscription_handler_queue (up : bool) (w : World) :
  active_tokens (ws_manager (subscription_handler up w)) =
    fst (fst (drain up (pending_subscriptions (ws_manager w)) (active_tokens (ws_manager w)))) /\
  pending_subscriptions (ws_manager (subscription_handler up w)) =
    snd (fst (drain up (pending_subscriptions (ws_manager w)) (active_tokens (ws_manager w)))).
Proof.
  unfold subscription_handler. now destruct (drain up _ _) as [[a' rem] sent].
Qed.

Lemma trade_rows_snoc (d d' : Database) (raw : raw_tx) :
  raw_txs d' = raw_txs d ++ [raw] ->
  trade_rows d' = (trade_rows d + (if is_trade raw then 1 else 0))%nat.
Proof.
  intros H. unfold trade_rows. rewrite H, List.filter_app, length_app. cbn.
  now destruct (is_trade raw).
Qed.

Lemma tokens_after_insert (row : token_row) (d : Database) :
  tokens (fst (insert_or_ignore_token row d)) = tokens d \/
  tokens (fst (insert_or_ignore_token row d)) = tokens d ++ [row].
Proof. unfold insert_or_ignore_token. destruct (has_token _ _); cbn; auto. Qed.

(** X3.  Each counter moves with its table.  Along a run the transaction counter
    grows by exactly the number of buy and sell rows appended to [raw_txs],
    and the creation counter by at least the number of rows appended to
    [tokens] (it also counts the creation messages whose mint was known). *)
Theorem counters_follow_tables (es : list event) (w w' : World) :
  run float_of_str es w = Running w' ->
  (processed_txs (stats w') + trade_rows (db w) =
     processed_txs (stats w) + trade_rows (db w'))%nat /\
  (length (tokens (db w')) + token_creations (stats w) <=
     length (tokens (db w)) + token_creations (stats w'))%nat.
Proof.
  revert w. induction es as [|e es IH]; intros w; cbn [run].
  - intros [= <-]. split; lia.
  - destruct (step float_of_str w e) as [w1| |] eqn:Hs; try discriminate.
    intros Hr. destruct (IH w1 Hr) as [IH1 IH2].
    assert (Hstep : (processed_txs (stats w1) + trade_rows (db w) =
                       processed_txs (stats w) + trade_rows (db w1))%nat /\
                    (length (tokens (db w1)) + token_creations (stats w) <=
                       length (tokens (db w)) + token_creations (stats w1))%nat).
    { apply step_cases in Hs
        as [(fails & _ & Hc) | [(_ & ->) | [(t & v & n & _ & Hp) | (up & _ & ->)]]].
      - apply connect_keeps_store in Hc as [-> ->]. split; lia.
      - split; lia.
      - apply process_message_effect in Hp as (_ & _ & _ & _ & _ & _ & Hc & Hx). split.
        + destruct Hx as [(Hraw & ->) | (raw & Hraw & ->)].
          * unfold trade_rows. rewrite Hraw. lia.
          * rewrite (trade_rows_snoc _ _ _ Hraw). lia.
        + destruct Hc as [(-> & _ & ->) | (row & -> & _ & ->)]; [lia|].
          destruct (tokens_after_insert row (db w)) as [-> | ->]; [lia|].
          rewrite length_app. cbn. lia.
      - destruct (subscription_handler_keeps_store up w) as [-> ->]. split; lia. }
    destruct Hstep as [S1 S2]. split; lia.
Qed.

Lemma step_mints_stored (w w1 : World) (e : event) :
  mints_stored w -> step float_of_str w e = Running w1 -> mints_stored w1.
Proof.
  intros Hk Hs. apply step_cases in Hs
    as [(fails & _ & Hc) | [(_ & ->) | [(t & v & n & _ & Hp) | (up & _ & ->)]]].
  - unfold connect in Hc.
    destruct (connect_loop_effect _ _ _ _ Hc) as (Hp & _).
    pose proof (reconnect_keeps_subscribed _ _ _ Hc) as Ha.
    destruct (connect_loop_store _ _ _ _ Hc) as [Hd _].
    intros m. rewrite Ha, Hp, Hd, elem_of_app. intros [H | [H | H]]; auto.
  - exact Hk.
  - apply process_message_effect in Hp as (_ & _ & _ & _ & Ha & _ & Hc & _).
    intros m. rewrite Ha.
    destruct Hc as [(Htk & -> & _) | (row & Htk & -> & _)]; unfold select_mints; rewrite Htk.
    + apply Hk.
    + rewrite elem_of_app, list_elem_of_singleton. intros Hm.
      assert (Hin : m ∈ select_mints (db w) \/ m = tk_mint row) by (destruct Hm as [?|[?|?]]; auto).
      clear Hm. fold (select_mints (fst (insert_or_ignore_token row (db w)))).
      destruct Hin as [Hin | ->]; [|apply has_token_spec, has_token_insert].
      unfold select_mints. destruct (tokens_after_insert row (db w)) as [-> | ->]; [exact Hin|].
      rewrite map_app, elem_of_app. now left.
  - destruct (drain_within up (pending_subscriptions (ws_manager w))
                (active_tokens (ws_manager w))) as (_ & H2 & H3).
    destruct (subscription_handler_keeps_store up w) as [Hd _].
    destruct (subscription_handler_queue up w) as [Ha Hq].
    intros m. unfold select_mints. rewrite Hd, Ha, Hq. intros Hm. apply Hk.
    destruct Hm as [Hm | Hm]; [destruct (H2 m Hm); auto | right; auto].
Qed.

(** X4.  From the start of the loop on, whatever happens, every mint the manager
    has subscribed or holds pending is a row of [tokens]; so the figure
    [stats_printer] shows as subscribed tokens never exceeds the number of
    rows of [tokens]. *)
Theorem subscribed_mints_are_stored (file : Database) (es : list event) (w' : World) :
  run float_of_str es (started file) = Running w' ->
  mints_stored w' /\
  (token_count (stats_snapshot w') <= length (tokens (db w')))%nat.
Proof.
  intros Hr.
  assert (H0 : mints_stored (started file)).
  { destruct (connect_returns (boot file)) as (_ & _ & Ha & Hp & _ & Hd & _).
    cbv zeta in *. unfold started. intros m. rewrite Ha, Hp, Hd. cbn.
    intros [H | H]; [set_solver | exact H]. }
  assert (Hk : mints_stored w').
  { revert Hr H0. generalize (started file) as w. induction es as [|e es IH]; intros w; cbn [run].
    - now intros [= <-].
    - destruct (step float_of_str w e) as [w1| |] eqn:Hs; try discriminate.
      intros Hr Hw. apply (IH w1 Hr). exact (step_mints_stored _ _ _ Hw Hs). }
  split; [exact Hk|]. cbn [stats_snapshot token_count].
  replace (length (tokens (db w'))) with (length (select_mints (db w')))
    by (unfold select_mints; apply length_map).
  apply submseteq_length, NoDup_submseteq; [apply NoDup_elements|].
  intros m Hm. apply Hk. left. now apply elem_of_elements.
Qed.

Lemma step_loop_invariants (w w1 : World) (e : event) :
  reconnect_attempts (ws_manager w) = 0%nat ->
  conn (ws_manager w) = Some (connections w) ->
  step float_of_str w e = Running w1 ->
  reconnect_attempts (ws_manager w1) = 0%nat /\
  conn (ws_manager w1) = Some (connections w1) /\
  handler_tasks w1 = (handler_tasks w + (if is_reconnect e then 1 else 0))%nat.
Proof.
  intros H0 Hc Hs. apply step_cases in Hs
    as [(fails & -> & Hr) | [(-> & ->) | [(t & v & n & -> & Hp) | (up & -> & ->)]]]; cbn.
  - destruct (connect_loop_effect _ _ _ _ Hr) as (_ & Hc1 & _ & Hh & _).
    pose proof (connect_loop_resets _ _ _ _ Hr). repeat split; auto. lia.
  - repeat split; auto.
  - apply process_message_effect in Hp as (_ & Hk & Hh & Hc1 & _ & Ha & _).
    rewrite Ha, Hc1, Hk, Hh. repeat split; auto.
  - destruct (subscription_handler_frame up w) as (-> & -> & -> & ->). repeat split; auto.
Qed.

(** X5.  In the loop the manager always has the connection opened last as its
    current one and an attempt counter at zero; and handler tasks pile up:
    none is ever stopped, so after [r] connection losses [r + 1] of them
    run. *)
Theorem loop_invariants (file : Database) (es : list event) (w' : World) :
  run float_of_str es (started file) = Running w' ->
  reconnect_attempts (ws_manager w') = 0%nat /\
  conn (ws_manager w') = Some (connections w') /\
  handler_tasks w' = S (reconnects es).
Proof.
  intros Hr.
  assert (G : forall es w w',
             reconnect_attempts (ws_manager w) = 0%nat ->
             conn (ws_manager w) = Some (connections w) ->
             run float_of_str es w = Running w' ->
             reconnect_attempts (ws_manager w') = 0%nat /\
             conn (ws_manager w') = Some (connections w') /\
             handler_tasks w' = (handler_tasks w + reconnects es)%nat).
  { clear. induction es as [|e es IH]; intros w w' H0 Hc; cbn [run].
    - intros [= <-]. unfold reconnects. cbn. repeat split; auto.
    - destruct (step float_of_str w e) as [w1| |] eqn:Hs; try discriminate.
      intros Hr. destruct (step_loop_invariants _ _ _ H0 Hc Hs) as (A0 & Ac & Ah).
      destruct (IH w1 w' A0 Ac Hr) as (B0 & Bc & Bh).
      repeat split; auto. rewrite Bh, Ah. unfold reconnects. cbn [List.filter].
      destruct (is_reconnect e); cbn; lia. }
  destruct (connect_returns (boot file)) as (Hc & H0 & _).
  destruct (G es (started file) w' H0 Hc Hr) as (A & B & C).
  repeat split; auto.
Qed.
End Loop.

(** ** Scenarios *)

(** C1.  A table holding the token [A]; the process starts and the handler
    subscribes [A] on connection 1; the connection closes and [connect]
    opens connection 2; the handler runs again.  [A] is still in
    [active_tokens], which [connect] never clears, so the only command that
    goes out on connection 2 is the one for the creation stream: no
    [subscribeTokenTrade] for [A], though [A] is in the table. *)
Theorem reconnect_sends_no_token_subscription (float_of_str : string -> option spec_float) :
  exists w : World,
    run float_of_str [HandlerPass true; ConnectionClosed []; HandlerPass true]
        (started file_A) = Running w /\
    conn (ws_manager w) = Some 2%nat /\
    select_mints (db w) = ["A"%string] /\
    sent_on 1 w = [SubscribeNewToken; SubscribeTokenTrade ["A"%string]] /\
    sent_on 2 w = [SubscribeNewToken] /\
    active_tokens (ws_manager w) = {["A"%string]} /\
    pending_subscriptions (ws_manager w) = [].
Proof. eexists. split; [reflexivity|]. repeat split. Qed.

(** C2.  [{"mint":"XYZ","txType":"buy","solAmount":1.5}] on an empty
    database: the loop's connection does not enforce the foreign key (the
    pragma was set on the connection of [initialize_database] only), so the
    row is written to [raw_txs] with no row for [XYZ] in [tokens], the pass
    runs to its end and the transaction counter goes up. *)
Theorem orphan_trade_is_stored (float_of_str : string -> option spec_float) :
  exists (w' : World) (raw : raw_tx),
    process_message float_of_str (started empty_db) 1700000000 (PDict msg_buy_XYZ)
      = Next w' Stored /\
    tokens (db w') = [] /\
    raw_txs (db w') = [raw] /\
    tx_mint raw = "XYZ"%string /\
    tx_sol_amount raw = SReal float_1_5 /\
    has_token "XYZ" (db w') = false /\
    processed_txs (stats w') = 1%nat.
Proof. do 2 eexists. split; [reflexivity|]. repeat split. Qed.

(** C3 on the examples of the specification: from a fresh process, with
    [websockets.connect] raising six times in a row, the attempt made at
    count 1 is followed by a sleep of [e], between 2 and 3, and the one made
    at count 5 by the cap, [60]; the six sleeps are [1, e, e^2, e^3, e^4, 60]. *)
Example backoff_of_six_failures :
  fst (connect (repeat ConnectRaises 6) (boot empty_db))
    = [1; exp 1; exp 2; exp 3; exp 4; Config.MAX_RECONNECT_DELAY]%R /\
  (2 < exp 1 < 3)%R.
Proof.
  split.
  - destruct (connect_slept 6 (boot empty_db) eq_refl) as [-> _]; [lia|].
    destruct next_delay_values as (H0 & H1 & H4 & Hlt & H5).
    cbn [seq map]. rewrite H0, H1, H4, (H5 5%nat) by lia.
    assert (Hmono : forall x, (x < 4)%R ->
              Rmin Config.MAX_RECONNECT_DELAY (Config.INITIAL_RECONNECT_DELAY * exp x) = exp x).
    { intros x Hx. pose proof (exp_increasing x 4 Hx) as Hi. rewrite H4 in Hlt.
      unfold Config.MAX_RECONNECT_DELAY, Config.INITIAL_RECONNECT_DELAY in *.
      rewrite Rmin_right; lra. }
    unfold next_delay.
    replace (INR 2) with 2%R by (simpl; lra). replace (INR 3) with 3%R by (simpl; lra).
    rewrite !Hmono by lra. reflexivity.
  - split; [pose proof (exp_ineq1 1); lra|].
    replace 1%R with (INR 8 * (1 / 8))%R by (simpl; lra).
    rewrite exp_INR_mult.
    assert (H : (exp (1 / 8) <= 8 / 7)%R).
    { pose proof (exp_ineq1 (- (1 / 8))) as H. rewrite exp_Ropp in H.
      pose proof (exp_pos (1 / 8)) as Hp.
      assert (H1 : (7 / 8 < / exp (1 / 8))%R) by lra.
      apply Rmult_lt_compat_r with (r := exp (1 / 8)) in H1; [|exact Hp].
      rewrite Rinv_l in H1 by lra. lra. }
    apply Rle_lt_trans with ((8 / 7) ^ 8)%R; [|simpl; lra].
    apply pow_incr. pose proof (exp_pos (1 / 8)). lra.
Qed.

(** When the connection opens and the subscription then fails, the counter
    was set to zero before the [except] clause counts the failure: three
    such passes are entered at the counts 0, 1, 1 and sleep [1, e, e]. *)
Example backoff_of_failed_subscriptions :
  attempt_counts [SendRaises; SendRaises; SendRaises] (boot empty_db) = [0; 1; 1]%nat /\
  fst (connect [SendRaises; SendRaises; SendRaises] (boot empty_db))
    = [1; exp 1; exp 1]%R.
Proof.
  destruct next_delay_values as (H0 & H1 & _).
  split; [reflexivity|].
  cbn [connect connect_loop failed_attempt fst snd]. cbn. now rewrite H1.
Qed.

(** C3 from the state of a fresh process: six failures of
    [websockets.connect] in a row, three failed subscriptions, and 710
    failures of [websockets.connect] in a row. *)
Lemma backoff_by_attempt_count_witness :
  reconnect_attempts (ws_manager (boot empty_db)) = 0%nat /\
  (attempt_counts (repeat ConnectRaises 6) (boot empty_db) = seq 0 6 /\
   (forall k : nat, (k < 6)%nat ->
      fst (connect (repeat ConnectRaises 6) (boot empty_db)) !! k
        = Some (Rmin Config.MAX_RECONNECT_DELAY
                     (Config.INITIAL_RECONNECT_DELAY * exp (INR k)))) /\
   length (fst (connect (repeat ConnectRaises 6) (boot empty_db))) = 6%nat /\
   exists w', snd (connect (repeat ConnectRaises 6) (boot empty_db)) = inr w' /\
              reconnect_attempts (ws_manager w') = 0%nat) /\
  exists w', snd (connect [SendRaises; SendRaises; SendRaises] (boot empty_db)) = inr w' /\
    fst (connect [SendRaises; SendRaises; SendRaises] (boot empty_db))
      = map (fun k : nat => Rmin Config.MAX_RECONNECT_DELAY
                              (Config.INITIAL_RECONNECT_DELAY * exp (INR k)))
            (attempt_counts [SendRaises; SendRaises; SendRaises] (boot empty_db)) /\
    reconnect_attempts (ws_manager w') = 0%nat /\
    snd (connect (repeat ConnectRaises 710) (boot empty_db)) = inl OverflowError.
Proof.
  split; [reflexivity|].
  destruct (backoff_by_attempt_count (boot empty_db) eq_refl) as (Hn & Hf & H710).
  split; [apply (Hn 6%nat); lia|].
  eexists. split; [reflexivity|].
  destruct (Hf [SendRaises; SendRaises; SendRaises] _ eq_refl) as [Hs Hz].
  split; [exact Hs|]. split; [exact Hz | exact H710].
Defined.

(** C4 on the message of the specification. *)
Lemma creation_of_new_mint_witness :
  msg_create_ABC !! "mint"%string = Some (PStr "ABC") /\
  msg_create_ABC !! "txType"%string = Some (PStr "create") /\
  creation_ok no_string_float 1700000000 msg_create_ABC = true /\
  has_token "ABC" (db (started file_A)) = false /\
  exists (w' : World) (row : token_row) (raw : raw_tx),
    process_message no_string_float (started file_A) 1700000000 (PDict msg_create_ABC)
      = Next w' Stored /\
    tokens (db w') = tokens (db (started file_A)) ++ [row] /\
    token_rows "ABC" (db w') = [row] /\
    tk_mint row = "ABC"%string /\
    tk_timestamp row = SInteger 1700000000 /\
    bind (dict_get msg_create_ABC "name" (PStr "")) = inr (tk_name row) /\
    bind (dict_get msg_create_ABC "symbol" (PStr "")) = inr (tk_symbol row) /\
    raw_txs (db w') = raw_txs (db (started file_A)) ++ [raw] /\
    tx_mint raw = "ABC"%string /\
    tx_tx_type raw = SText "create" /\
    pending_subscriptions (ws_manager w') =
      pending_subscriptions (ws_manager (started file_A)) ++ ["ABC"%string] /\
    token_creations (stats w') = S (token_creations (stats (started file_A))) /\
    processed_txs (stats w') = processed_txs (stats (started file_A)).
Proof.
  split; [reflexivity|]. split; [reflexivity|]. split; [reflexivity|].
  split; [reflexivity|].
  apply (creation_of_new_mint no_string_float (started file_A) 1700000000
           msg_create_ABC "ABC"); reflexivity.
Defined.

(** The rows the message of the specification leaves in an empty database. *)
Example creation_ABC_rows :
  exists w' : World,
    process_message no_string_float (started empty_db) 1700000000 (PDict msg_create_ABC)
      = Next w' Stored /\
    tokens (db w') =
      [{| tk_mint := "ABC"; tk_timestamp := SInteger 1700000000;
          tk_initial_sol_liquidity := SInteger 5;
          tk_name := SText "Foo"; tk_symbol := SText "FOO" |}] /\
    raw_txs (db w') =
      [{| tx_mint := "ABC"; tx_timestamp := SInteger 1700000000;
          tx_traderPublicKey := SNull; tx_tx_type := SText "create";
          tx_token_amount := SReal float_zero; tx_sol_amount := SReal float_zero;
          tx_new_token_balance := SReal float_zero; tx_bondingCurveKey := SNull;
          tx_vTokensInBondingCurve := SReal float_zero;
          tx_vSolInBondingCurve := SReal float_zero;
          tx_marketCapSol := SReal float_zero |}] /\
    pending_subscriptions (ws_manager w') = ["ABC"%string] /\
    stats w' = {| processed_txs := 0; token_creations := 1 |}.
Proof. eexists. split; [reflexivity|]. repeat split. Qed.

(** C5 on two rows for [ABC] that differ in every other column. *)
Lemma insert_token_twice_witness :
  let r1 := {| tk_mint := "ABC"; tk_timestamp := SInteger 1;
               tk_initial_sol_liquidity := SInteger 5;
               tk_name := SText "Foo"; tk_symbol := SText "FOO" |} in
  let r2 := {| tk_mint := "ABC"; tk_timestamp := SInteger 2;
               tk_initial_sol_liquidity := SNull;
               tk_name := SText "Bar"; tk_symbol := SText "BAR" |} in
  tk_mint r2 = tk_mint r1 /\
  has_token (tk_mint r1) file_A = false /\
  snd (insert_or_ignore_token r1 file_A) = 1%nat /\
  snd (insert_or_ignore_token r2 (fst (insert_or_ignore_token r1 file_A))) = 0%nat /\
  fst (insert_or_ignore_token r2 (fst (insert_or_ignore_token r1 file_A)))
    = fst (insert_or_ignore_token r1 file_A) /\
  token_rows (tk_mint r1)
    (fst (insert_or_ignore_token r2 (fst (insert_or_ignore_token r1 file_A)))) = [r1].
Proof.
  intros r1 r2. split; [reflexivity|]. split; [reflexivity|].
  apply (insert_token_twice file_A r1 r2); reflexivity.
Defined.

(** C6, the claim at a subscribed mint: [subscribe_token] puts [A] on the
    queue although [A] is in the subscribed set. *)
Lemma subscribed_mint_is_enqueued_again :
  ("A"%string ∈ active_tokens manager_A) /\
  pending_subscriptions manager_A = [] /\
  pending_subscriptions (subscribe_token "A" manager_A) = ["A"%string].
Proof. split; [simpl; set_solver|]. split; reflexivity. Qed.

(** C6 at a manager subscribed to [A]: nothing goes out for [A], one command
    for [B] enqueued twice. *)
Lemma subscription_dedup_witness :
  ("A"%string ∈ active_tokens manager_A) /\
  ("B"%string ∉ active_tokens manager_A) /\
  ("A"%string ∉ handler_sent true (subscribe_token "A" manager_A)) /\
  filter (eq "B"%string)
         (handler_sent true (subscribe_token "B" (subscribe_token "B" manager_A)))
    = ["B"%string].
Proof.
  assert (HA : "A"%string ∈ active_tokens manager_A) by (simpl; set_solver).
  assert (HB : "B"%string ∉ active_tokens manager_A) by (simpl; set_solver).
  split; [exact HA|]. split; [exact HB|]. split.
  - exact (proj1 (proj1 (proj2 (subscription_dedup manager_A "A")) HA)).
  - exact (proj1 (proj2 (proj2 (subscription_dedup manager_A "B"))) HB).
Defined.

(** C7 on a message without [txType]. *)
Lemma missing_field_skipped_witness :
  (msg_without_txType !! "mint"%string = None \/
   msg_without_txType !! "txType"%string = None) /\
  process_message no_string_float (started file_A) 1700000000 (PDict msg_without_txType)
    = Next (started file_A) Skipped.
Proof.
  assert (H : msg_without_txType !! "mint"%string = None \/
              msg_without_txType !! "txType"%string = None) by (right; reflexivity).
  split; [exact H|].
  exact (missing_field_skipped no_string_float (started file_A) 1700000000
           msg_without_txType H).
Defined.

(** C8.  [{"mint":"ABC","txType":"create","initialBuy":null}]: the row of
    [tokens] gets [NULL] for [initial_sol_liquidity], where the six fields
    read through [float] get [0.0]. *)
Theorem null_liquidity_is_stored_as_null (float_of_str : string -> option spec_float) :
  exists (w' : World) (row : token_row) (raw : raw_tx),
    process_message float_of_str (started empty_db) 1700000000
                    (PDict msg_create_null_liquidity) = Next w' Stored /\
    tokens (db w') = [row] /\
    tk_mint row = "ABC"%string /\
    tk_initial_sol_liquidity row = SNull /\
    raw_txs (db w') = [raw] /\
    tx_token_amount raw = SReal float_zero /\
    tx_sol_amount raw = SReal float_zero.
Proof. do 3 eexists. split; [reflexivity|]. repeat split. Qed.

(** C9 on two creation messages for [ABC], a minute apart. *)
Lemma duplicate_creation_witness :
  msg_create_ABC !! "mint"%string = Some (PStr "ABC") /\
  msg_create_ABC !! "txType"%string = Some (PStr "create") /\
  creation_ok no_string_float 1700000000 msg_create_ABC = true /\
  msg_create_null_liquidity !! "mint"%string = Some (PStr "ABC") /\
  msg_create_null_liquidity !! "txType"%string = Some (PStr "create") /\
  creation_ok no_string_float 1700000060 msg_create_null_liquidity = true /\
  exists (w1 w2 : World) (raw1 raw2 : raw_tx),
    process_message no_string_float (started empty_db) 1700000000 (PDict msg_create_ABC)
      = Next w1 Stored /\
    process_message no_string_float w1 1700000060 (PDict msg_create_null_liquidity)
      = Next w2 Stored /\
    tokens (db w2) = tokens (db w1) /\
    raw_txs (db w2) = raw_txs (db (started empty_db)) ++ [raw1; raw2] /\
    tx_mint raw1 = "ABC"%string /\ tx_tx_type raw1 = SText "create" /\
    tx_mint raw2 = "ABC"%string /\ tx_tx_type raw2 = SText "create" /\
    tx_timestamp raw2 = SInteger 1700000060.
Proof.
  do 6 (split; [reflexivity|]).
  apply (duplicate_creation no_string_float (started empty_db) 1700000000 1700000060
           msg_create_ABC msg_create_null_liquidity "ABC"); reflexivity.
Defined.

(** C10, the claim at an empty list: [tokenAmount] is present and [float]
    rejects an empty list, yet [[] or 0] is [0], the extraction succeeds,
    and both tables get a row. *)
Lemma empty_list_amount_is_stored :
  msg_empty_list_amount !! "tokenAmount"%string = Some (PList []) /\
  py_float no_string_float (PList []) = inl TypeError /\
  exists (w' : World) (row : token_row) (raw : raw_tx),
    process_message no_string_float (started empty_db) 1700000000
                    (PDict msg_empty_list_amount) = Next w' Stored /\
    tokens (db w') = [row] /\
    raw_txs (db w') = [raw] /\
    tx_token_amount raw = SReal float_zero.
Proof.
  split; [reflexivity|]. split; [reflexivity|].
  do 3 eexists. split; [reflexivity|]. repeat split.
Qed.

(** C10 on a message whose [tokenAmount] is the list [[1]]. *)
Lemma uncoercible_field_drops_message_witness :
  ("tokenAmount"%string ∈ numeric_fields) /\
  msg_list_amount !! "tokenAmount"%string = Some (PList [PInt 1]) /\
  truthy (PList [PInt 1]) = true /\
  py_float no_string_float (PList [PInt 1]) = inl TypeError /\
  (process_message no_string_float (started file_A) 1700000000 (PDict msg_list_amount)
     = Next (started file_A) Skipped \/
   exists e', process_message no_string_float (started file_A) 1700000000
                              (PDict msg_list_amount)
              = Next (started file_A) (Failed e')).
Proof.
  assert (Hk : "tokenAmount"%string ∈ numeric_fields) by apply list_elem_of_here.
  split; [exact Hk|]. split; [reflexivity|]. split; [reflexivity|]. split; [reflexivity|].
  exact (uncoercible_field_drops_message no_string_float (started file_A) 1700000000
           msg_list_amount "tokenAmount" (PList [PInt 1]) TypeError
           Hk eq_refl eq_refl eq_refl).
Defined.

(** ** The further properties at the scenarios *)

Lemma scenario_runs :
  run no_string_float scenario_events (started file_A) = Running scenario_end.
Proof. reflexivity. Qed.

(** X1 at a scenario. *)
Lemma run_append_only_witness :
  run no_string_float scenario_events (started file_A) = Running scenario_end /\
  tokens (db (started file_A)) `prefix_of` tokens (db scenario_end) /\
  raw_txs (db (started file_A)) `prefix_of` raw_txs (db scenario_end).
Proof.
  split; [exact scenario_runs|].
  exact (run_append_only no_string_float scenario_events (started file_A) scenario_end
           scenario_runs).
Defined.

(** X2 at a scenario. *)
Lemma run_unique_mints_witness :
  NoDup (select_mints (db (started file_A))) /\
  run no_string_float scenario_events (started file_A) = Running scenario_end /\
  NoDup (select_mints (db scenario_end)).
Proof.
  assert (H : NoDup (select_mints (db (started file_A)))) by apply NoDup_singleton.
  split; [exact H|]. split; [exact scenario_runs|].
  exact (run_unique_mints no_string_float scenario_events (started file_A) scenario_end
           H scenario_runs).
Defined.

(** X16 at a scenario. *)
Lemma first_connection_replays_witness :
  ("A"%string ∈ select_mints file_A) /\
  ((1%nat, SubscribeTokenTrade ["A"%string])
     ∈ wire (subscription_handler true (started file_A))).
Proof.
  assert (H : "A"%string ∈ select_mints file_A) by apply list_elem_of_here.
  split; [exact H|]. exact (first_connection_replays file_A "A" H).
Defined.

(** X17 at a scenario. *)
Lemma reconnect_skips_subscribed_witness :
  snd (connect [ConnectRaises] world_ABC)
    = inr (start_handler (initial_subscriptions
                            (connected (count_attempt world_ABC)))) /\
  ("A"%string ∈ active_tokens (ws_manager world_ABC)) /\
  ("A"%string ∉ handler_sent true
      (ws_manager (start_handler (initial_subscriptions
                                    (connected (count_attempt world_ABC)))))).
Proof.
  assert (HA : "A"%string ∈ active_tokens (ws_manager world_ABC)) by (simpl; set_solver).
  split; [reflexivity|]. split; [exact HA|].
  exact (reconnect_skips_subscribed [ConnectRaises] world_ABC _ "A" eq_refl HA).
Defined.

(** X20 at a scenario. *)
Lemma reconnect_overflow_witness :
  reconnect_attempts (ws_manager world_ABC) = 0%nat /\
  snd (connect (repeat ConnectRaises 710 ++ [SendRaises]) world_ABC) = inl OverflowError /\
  step no_string_float world_ABC (ConnectionClosed (repeat ConnectRaises 710 ++ [SendRaises]))
    = Crashed OverflowError.
Proof.
  split; [reflexivity|].
  exact (reconnect_overflow no_string_float world_ABC [SendRaises] eq_refl).
Defined.

(** X5 at a scenario. *)
Lemma loop_invariants_witness :
  run no_string_float scenario_events (started file_A) = Running scenario_end /\
  reconnect_attempts (ws_manager scenario_end) = 0%nat /\
  conn (ws_manager scenario_end) = Some (connections scenario_end) /\
  handler_tasks scenario_end = S (reconnects scenario_events).
Proof.
  split; [exact scenario_runs|].
  exact (loop_invariants no_string_float file_A scenario_events scenario_end scenario_runs).
Defined.

(** X8 at a scenario. *)
Lemma unknown_kind_ignored_witness :
  msg_migrate_ABC !! "mint"%string = Some (PStr "ABC") /\
  msg_migrate_ABC !! "txType"%string = Some (PStr "migrate") /\
  floats_ok no_string_float (<["timestamp"%string := PInt 1700000000]> msg_migrate_ABC) = true /\
  str_eq (PStr "migrate") "create" || str_eq (PStr "migrate") "buy"
    || str_eq (PStr "migrate") "sell" = false /\
  process_message no_string_float (started file_A) 1700000000 (PDict msg_migrate_ABC)
    = Next (started file_A) Ignored.
Proof.
  do 4 (split; [reflexivity|]).
  exact (unknown_kind_ignored no_string_float (started file_A) 1700000000 msg_migrate_ABC
           (PStr "ABC") (PStr "migrate") eq_refl eq_refl eq_refl eq_refl).
Defined.

(** X7 at a scenario. *)
Lemma trade_is_recorded_witness :
  msg_sell_ABC !! "mint"%string = Some (PStr "ABC") /\
  msg_sell_ABC !! "txType"%string = Some (PStr "sell") /\
  ("sell"%string = "buy"%string \/ "sell"%string = "sell"%string) /\
  trade_ok no_string_float 1700000060 msg_sell_ABC = true /\
  exists (w' : World) (raw : raw_tx),
    process_message no_string_float (started file_A) 1700000060 (PDict msg_sell_ABC)
      = Next w' Stored /\
    raw_txs (db w') = raw_txs (db (started file_A)) ++ [raw] /\
    tx_mint raw = "ABC"%string /\
    tx_tx_type raw = SText "sell" /\
    tx_timestamp raw = SInteger 1700000060 /\
    bind (dict_get msg_sell_ABC "traderPublicKey" PNone) = inr (tx_traderPublicKey raw) /\
    tokens (db w') = tokens (db (started file_A)) /\
    processed_txs (stats w') = S (processed_txs (stats (started file_A))) /\
    token_creations (stats w') = token_creations (stats (started file_A)) /\
    ws_manager w' = ws_manager (started file_A) /\
    wire w' = wire (started file_A).
Proof.
  split; [reflexivity|]. split; [reflexivity|]. split; [right; reflexivity|].
  split; [reflexivity|].
  apply (trade_is_recorded no_string_float (started file_A) 1700000060 msg_sell_ABC
           "ABC" "sell"); try reflexivity. right; reflexivity.
Defined.

(** X6 at a scenario. *)
Lemma body_only_enqueues_witness :
  exists (w' : World) (n : note),
    process_message no_string_float (started file_A) 1700000000 (PDict msg_create_ABC)
      = Next w' n /\
    wire w' = wire (started file_A) /\
    conn (ws_manager w') = conn (ws_manager (started file_A)) /\
    active_tokens (ws_manager w') = active_tokens (ws_manager (started file_A)) /\
    reconnect_attempts (ws_manager w') = reconnect_attempts (ws_manager (started file_A)) /\
    connections w' = connections (started file_A) /\
    handler_tasks w' = handler_tasks (started file_A) /\
    (pending_subscriptions (ws_manager w')
       = pending_subscriptions (ws_manager (started file_A)) \/
     exists m, pending_subscriptions (ws_manager w') =
                 pending_subscriptions (ws_manager (started file_A)) ++ [m] /\
               has_token m (db w') = true).
Proof.
  do 2 eexists. split; [reflexivity|].
  apply (body_only_enqueues no_string_float (started file_A) _ 1700000000
           (PDict msg_create_ABC) Stored). reflexivity.
Defined.

(** X14 at a scenario. *)
Lemma handler_pass_subscribes_witness :
  conn (ws_manager world_ABC) = Some 1%nat /\
  pending_subscriptions (ws_manager (subscription_handler true world_ABC)) = [] /\
  active_tokens (ws_manager (subscription_handler true world_ABC)) =
    active_tokens (ws_manager world_ABC)
      ∪ list_to_set (pending_subscriptions (ws_manager world_ABC)) /\
  wire (subscription_handler true world_ABC) =
    wire world_ABC ++ map (fun mint => (1%nat, SubscribeTokenTrade [mint]))
                          (handler_sent true (ws_manager world_ABC)) /\
  db (subscription_handler true world_ABC) = db world_ABC /\
  stats (subscription_handler true world_ABC) = stats world_ABC /\
  handler_sent true (ws_manager (subscription_handler true world_ABC)) = [].
Proof.
  split; [reflexivity|]. exact (handler_pass_subscribes world_ABC 1 eq_refl).
Defined.

(** X15 at a scenario. *)
Lemma failed_send_drops_mint_witness :
  pending_subscriptions (ws_manager world_ABC) = ["A"%string] ++ "B"%string :: ["C"%string] /\
  (forall x, x ∈ ["A"%string] -> x ∈ active_tokens (ws_manager world_ABC)) /\
  ("B"%string ∉ active_tokens (ws_manager world_ABC)) /\
  pending_subscriptions (ws_manager (subscription_handler false world_ABC)) = ["C"%string] /\
  active_tokens (ws_manager (subscription_handler false world_ABC))
    = active_tokens (ws_manager world_ABC) /\
  wire (subscription_handler false world_ABC) = wire world_ABC.
Proof.
  assert (H1 : forall x, x ∈ ["A"%string] -> x ∈ active_tokens (ws_manager world_ABC))
    by (intros x Hx; simpl; set_solver).
  assert (H2 : "B"%string ∉ active_tokens (ws_manager world_ABC)) by (simpl; set_solver).
  split; [reflexivity|]. split; [exact H1|]. split; [exact H2|].
  exact (failed_send_drops_mint world_ABC ["A"%string] ["C"%string] "B" eq_refl H1 H2).
Defined.

(** X10 on the message whose [tokenAmount] is an empty list, and on one
    whose [solAmount] is [1.5]. *)
Lemma falsy_field_reads_zero_witness :
  msg_empty_list_amount !! "tokenAmount"%string = Some (PList []) /\
  get_float no_string_float msg_empty_list_amount "tokenAmount" = inr float_zero /\
  py_float no_string_float (PList []) = inl TypeError /\
  msg_buy_XYZ !! "solAmount"%string = Some (PFloat float_1_5) /\
  get_float no_string_float msg_buy_XYZ "solAmount" = inr float_1_5.
Proof.
  split; [reflexivity|]. split.
  - apply (proj1 (falsy_field_reads_zero no_string_float msg_empty_list_amount "tokenAmount")).
    do 6 right. left. reflexivity.
  - split; [reflexivity|]. split; [reflexivity|].
    apply (proj2 (falsy_field_reads_zero no_string_float msg_buy_XYZ "solAmount"));
      discriminate.
Defined.

(** X4 at a scenario. *)
Lemma subscribed_mints_are_stored_witness :
  run no_string_float scenario_events (started file_A) = Running scenario_end /\
  mints_stored scenario_end /\
  (token_count (stats_snapshot scenario_end) <= length (tokens (db scenario_end)))%nat.
Proof.
  split; [exact scenario_runs|].
  exact (subscribed_mints_are_stored no_string_float file_A scenario_events scenario_end
           scenario_runs).
Defined.

(** X3 at a scenario. *)
Lemma counters_follow_tables_witness :
  run no_string_float scenario_events (started file_A) = Running scenario_end /\
  (processed_txs (stats scenario_end) + trade_rows (db (started file_A)) =
     processed_txs (stats (started file_A)) + trade_rows (db scenario_end))%nat /\
  (length (tokens (db scenario_end)) + token_creations (stats (started file_A)) <=
     length (tokens (db (started file_A))) + token_creations (stats scenario_end))%nat.
Proof.
  split; [exact scenario_runs|].
  exact (counters_follow_tables no_string_float scenario_events (started file_A) scenario_end
           scenario_runs).
Defined.

(** X11 at a scenario. *)
Lemma unused_fields_ignored_witness :
  ("signature"%string ∈ unused_fields) /\
  process_message no_string_float (started file_A) 1700000000
                  (PDict (<["signature"%string := PStr "5Xy"]> msg_create_ABC))
    = process_message no_string_float (started file_A) 1700000000 (PDict msg_create_ABC).
Proof.
  assert (H : "signature"%string ∈ unused_fields) by apply list_elem_of_here.
  split; [exact H|].
  exact (unused_fields_ignored no_string_float (started file_A) 1700000000 msg_create_ABC
           "signature" (PStr "5Xy") H).
Defined.

(** X12 at a scenario. *)
Lemma creation_without_raw_row_witness :
  msg_create_list_trader !! "mint"%string = Some (PStr "ABC") /\
  msg_create_list_trader !! "txType"%string = Some (PStr "create") /\
  floats_ok no_string_float
            (<["timestamp"%string := PInt 1700000000]> msg_create_list_trader) = true /\
  token_ok 1700000000 msg_create_list_trader = true /\
  bind (dict_get msg_create_list_trader "traderPublicKey" PNone) = inl BindError /\
  exists (w' : World) (row : token_row),
    process_message no_string_float (started file_A) 1700000000
                    (PDict msg_create_list_trader) = Next w' (Failed BindError) /\
    tk_mint row = "ABC"%string /\
    tokens (db w') = tokens (fst (insert_or_ignore_token row (db (started file_A)))) /\
    raw_txs (db w') = raw_txs (db (started file_A)) /\
    pending_subscriptions (ws_manager w') =
      pending_subscriptions (ws_manager (started file_A)) ++ ["ABC"%string] /\
    token_creations (stats w') = S (token_creations (stats (started file_A))) /\
    processed_txs (stats w') = processed_txs (stats (started file_A)).
Proof.
  do 5 (split; [reflexivity|]).
  apply (creation_without_raw_row no_string_float (started file_A) 1700000000
           msg_create_list_trader "ABC" BindError); reflexivity.
Defined.

(** X13 at a scenario. *)
Lemma creation_with_refused_token_witness :
  msg_create_list_name !! "mint"%string = Some (PStr "ABC") /\
  msg_create_list_name !! "txType"%string = Some (PStr "create") /\
  floats_ok no_string_float
            (<["timestamp"%string := PInt 1700000000]> msg_create_list_name) = true /\
  token_ok 1700000000 msg_create_list_name = false /\
  exists e, process_message no_string_float (started file_A) 1700000000
                            (PDict msg_create_list_name)
            = Next (started file_A) (Failed e).
Proof.
  do 4 (split; [reflexivity|]).
  apply (creation_with_refused_token no_string_float (started file_A) 1700000000
           msg_create_list_name "ABC"); reflexivity.
Defined.

(** X18 at the first call of a process whose table holds [A]: the read of
    the table fails once, then the connection. *)
Lemma connect_effect_witness :
  exists w' : World,
    snd (connect [SelectRaises; ConnectRaises] (boot file_A)) = inr w' /\
    (conn (ws_manager w') = Some (connections w') /\
     (connections (boot file_A) < connections w')%nat /\
     handler_tasks w' = S (handler_tasks (boot file_A)) /\
     db w' = db (boot file_A) /\ stats w' = stats (boot file_A) /\
     reconnect_attempts (ws_manager w') = 0%nat) /\
    (handler_tasks (boot file_A) = 0%nat ->
     handler_tasks w' = 1%nat /\
     last (wire w') = Some (connections w', SubscribeNewToken) /\
     pending_subscriptions (ws_manager w') =
       pending_subscriptions (ws_manager (boot file_A)) ++ select_mints (db (boot file_A)) /\
     active_tokens (ws_manager w') = active_tokens (ws_manager (boot file_A))) /\
    handler_tasks (boot file_A) = 0%nat /\
    pending_subscriptions (ws_manager w') = ["A"%string].
Proof.
  eexists. split; [reflexivity|].
  pose proof (connect_effect [SelectRaises; ConnectRaises] (boot file_A) _ eq_refl) as [H1 H2].
  split; [exact H1|]. split; [exact H2|]. split; reflexivity.
Defined.

(** X19 at a scenario. *)
Lemma connect_sleeps_within_bounds_witness :
  (3 < 710)%nat /\
  reconnect_attempts (ws_manager world_ABC) = 0%nat /\
  fst (connect (repeat ConnectRaises 3) world_ABC) !! 0%nat
    = Some Config.INITIAL_RECONNECT_DELAY /\
  fst (connect (repeat ConnectRaises 3) world_ABC) !! 1%nat = Some (next_delay 1) /\
  (Config.INITIAL_RECONNECT_DELAY <= next_delay 1)%R /\
  Forall (fun d => (Config.INITIAL_RECONNECT_DELAY <= d <= Config.MAX_RECONNECT_DELAY)%R)
         (fst (connect [SendRaises; ConnectRaises] world_ABC)).
Proof.
  assert (Hn : (3 < 710)%nat) by lia.
  split; [exact Hn|]. split; [reflexivity|]. split; [reflexivity|]. split; [reflexivity|].
  split.
  - exact (proj2 (connect_sleeps_within_bounds [] world_ABC) 3%nat Hn eq_refl 0%nat
             Config.INITIAL_RECONNECT_DELAY (next_delay 1) eq_refl eq_refl).
  - exact (proj1 (connect_sleeps_within_bounds [SendRaises; ConnectRaises] world_ABC)).
Defined.
